(** * Availability resolution of calendso: working hours, slot selection, guards

    Shallow embedding of the two API handlers

    - [src/pages/api/availability/[user]/slot.ts]  (the slot-fetch variant), and
    - [src/unnamed/part_000]                       (the availability variant),

    followed by the properties of the specification that concern them.

    Conventions of the embedding.

    - A JavaScript number is [JS.NaN] or an exact integer [JS.Num z].  Every
      number the handlers compute is an integer combination of [parseInt]
      results and of calendar fields, so the integer reading is exact as long
      as the values stay below 2^53; [-0] is identified with [0] (the handlers
      only compare and subtract, which do not tell them apart).
    - A string is a sequence of 8-bit code units.
    - A value stored in the [Json] column [freeBusyTimes] is a [json] tree;
      [undefined] is [None] of [option json].
    - An exception aborts the handler: [completion] is the error monad, and a
      handler returns [Throw e] where the JavaScript promise rejects.
    - A dayjs object is [Dayjs.Invalid] or an instant in milliseconds since
      the epoch.
    - What the runtime contributes is in [env]: the clock read by [dayjs()]
      (the two readings within one request are the same instant); whether
      [dayjs.extend(timezone)] has been run in the process, which slot.ts
      does when it is loaded and part_000 never does; the zone names the
      runtime knows and, for each, the wall-clock time that [d.tz(zone)]
      holds, however the library arrives at it; the order in which
      [Array.prototype.sort] leaves an array when the comparator is not
      consistent; and the two database tables. *)

From Stdlib Require Import Ascii.
From stdpp Require Import gmap strings list sorting.

#[local] Set Warnings "-register-all".
#[local] Open Scope Z_scope.

(** ** JavaScript numbers *)

Module JS.

Inductive number :=
  | NaN
  | Num (z : Z).

#[global] Instance number_eq_dec : EqDecision number.
Proof. solve_decision. Defined.

Definition isNaN (a : number) : bool :=
  match a with NaN => true | Num _ => false end.

Definition mul (a b : number) : number :=
  match a, b with Num x, Num y => Num (x * y) | _, _ => NaN end.

Definition add (a b : number) : number :=
  match a, b with Num x, Num y => Num (x + y) | _, _ => NaN end.

Definition sub (a b : number) : number :=
  match a, b with Num x, Num y => Num (x - y) | _, _ => NaN end.

(** [a >= b] and [a <= b]: false as soon as one side is NaN. *)
Definition ge (a b : number) : bool :=
  match a, b with Num x, Num y => bool_decide (y ≤ x) | _, _ => false end.

Definition le (a b : number) : bool :=
  match a, b with Num x, Num y => bool_decide (x ≤ y) | _, _ => false end.

(** *** Strings: [String.prototype.split] with a one-character separator *)

Fixpoint split (sep : ascii) (s : string) : list string :=
  match s with
  | EmptyString => [EmptyString]
  | String c rest =>
      if Ascii.eqb c sep then EmptyString :: split sep rest
      else match split sep rest with
           | piece :: pieces => String c piece :: pieces
           | [] => [String c EmptyString]
           end
  end.

(** *** [parseInt(string)] without a radix argument *)

(** WhiteSpace and LineTerminator code units below 256. *)
Definition is_white_space (c : ascii) : bool :=
  match N_of_ascii c with
  | 9%N | 10%N | 11%N | 12%N | 13%N | 32%N | 160%N => true
  | _ => false
  end.

Fixpoint trim_start (s : string) : string :=
  match s with
  | EmptyString => EmptyString
  | String c rest => if is_white_space c then trim_start rest else s
  end.

(** Value of a digit in radix up to 36: [0-9], [a-z], [A-Z]. *)
Definition digit_value (c : ascii) : option Z :=
  let n := Z.of_N (N_of_ascii c) in
  if bool_decide (48 ≤ n ≤ 57) then Some (n - 48)
  else if bool_decide (97 ≤ n ≤ 122) then Some (n - 87)
  else if bool_decide (65 ≤ n ≤ 90) then Some (n - 55)
  else None.

(** The longest prefix of radix-[R] digits, as a number; [acc] is the value
    read so far, [None] while no digit has been read. *)
Fixpoint digits (R : Z) (s : string) (acc : option Z) : option Z :=
  match s with
  | EmptyString => acc
  | String c rest =>
      match digit_value c with
      | Some d =>
          if bool_decide (d < R) then digits R rest (Some (R * default 0 acc + d))
          else acc
      | None => acc
      end
  end.

Definition strip_sign (s : string) : Z * string :=
  match s with
  | String c rest =>
      if Ascii.eqb c "-" then (-1, rest)
      else if Ascii.eqb c "+" then (1, rest)
      else (1, s)
  | EmptyString => (1, s)
  end.

Definition strip_hex_prefix (s : string) : Z * string :=
  match s with
  | String c0 (String c1 rest) =>
      if Ascii.eqb c0 "0" && (Ascii.eqb c1 "x" || Ascii.eqb c1 "X") then (16, rest)
      else (10, s)
  | _ => (10, s)
  end.

Definition parseInt (s : string) : number :=
  let '(sign, s1) := strip_sign (trim_start s) in
  let '(R, s2) := strip_hex_prefix s1 in
  match digits R s2 None with
  | None => NaN
  | Some n => Num (sign * n)
  end.

(** [parseInt(x)] where [x] is an array element: a missing element is
    [undefined], which [parseInt] first converts to the string "undefined". *)
Definition parseInt_elem (x : option string) : number :=
  parseInt (default "undefined"%string x).

End JS.

(** ** Exceptions *)

Inductive exn :=
  | TypeError
  | RangeError
  | Error (message : string).

Inductive completion (A : Type) :=
  | Normal (a : A)
  | Throw (e : exn).
Arguments Normal {A} a.
Arguments Throw {A} e.

#[global] Instance completion_ret : MRet completion := λ A a, Normal a.
#[global] Instance completion_bind : MBind completion := λ A B f c,
  match c with Normal a => f a | Throw e => Throw e end.

Fixpoint mapC {A B} (f : A → completion B) (l : list A) : completion (list B) :=
  match l with
  | [] => Normal []
  | x :: l' => y ← f x; ys ← mapC f l'; Normal (y :: ys)
  end.

Fixpoint foldC {A B} (f : B → A → completion B) (acc : B) (l : list A) : completion B :=
  match l with
  | [] => Normal acc
  | x :: l' => acc' ← f acc x; foldC f acc' l'
  end.

(** ** Stored JSON values *)

Inductive json :=
  | JNull
  | JBool (b : bool)
  | JNumber (n : Z)
  | JString (s : string)
  | JArray (items : list json)
  | JObject (fields : gmap string json).

(** [v.key] for a data key [key] (none of the keys read by the handlers is a
    built-in property of a string, an array or a number): a [TypeError] on
    [null] and [undefined], the stored field on an object, [undefined]
    elsewhere. *)
Definition member (v : option json) (key : string) : completion (option json) :=
  match v with
  | None | Some JNull => Throw TypeError
  | Some (JObject fields) => Normal (fields !! key)
  | Some _ => Normal None
  end.

(** [v?.[key]]: as [member], but [undefined] on [null] and [undefined]. *)
Definition member_opt (v : option json) (key : string) : option json :=
  match v with
  | Some (JObject fields) => fields !! key
  | _ => None
  end.

(** [v.split(":")]: only a string has the method. *)
Definition call_split (v : option json) : completion (list string) :=
  match v with
  | Some (JString s) => Normal (JS.split ":" s)
  | _ => Throw TypeError
  end.

(** ** Records of the handlers *)

(** A working-hour interval, as the handlers build it:
    [{ days, startTime, endTime }]. *)
Module Slot.
Record t := mk { days : list Z; startTime : JS.number; endTime : JS.number }.

#[global] Instance eq_dec : EqDecision t.
Proof. solve_decision. Defined.
End Slot.

(** A row of [Schedule] as selected: [{ freeBusyTimes }]. *)
Module Schedule.
Record t := mk { freeBusyTimes : json }.
End Schedule.

(** The columns of [users] that the handlers read.  [credentials],
    [bufferTime], [availability] and [selectedCalendars] are selected and
    never used; [minimumBookingNotice] is selected by the slot-fetch variant
    only. *)
Module User.
Record t := mk {
  id : Z;
  username : string;
  timeZone : string;
  startTime : Z;
  endTime : Z;
  Schedule : list Schedule.t;
  minimumBookingNotice : Z;
}.
End User.

Module Booking.
Record t := mk {
  userId : Z;
  status : string;
  confirmed : bool;
  startTime : Z;   (* instant, milliseconds *)
  endTime : Z;
}.
End Booking.

(** An element of [busy]: [{ startTime, endTime }], minutes of the local day. *)
Module Busy.
Record t := mk { startTime : Z; endTime : Z }.
End Busy.

(** ** dayjs *)

Module Dayjs.

(** [dayjs(string-or-null)]: an invalid date or an instant. *)
Inductive t :=
  | Invalid
  | At (ms : Z).

Definition isValid (d : t) : bool :=
  match d with At _ => true | Invalid => false end.

(** [a.isAfter(b)] compares [valueOf]; with an invalid date it is false. *)
Definition isAfter (a b : t) : bool :=
  match a, b with At x, At y => bool_decide (y < x) | _, _ => false end.

(** [a.diff(b, "hours")]: the difference in milliseconds over 3600000,
    truncated toward zero. *)
Definition diff_hours (a b : Z) : Z := (a - b) `quot` 3600000.

(** [dayjs().add(n, "minutes")]. *)
Definition add_minutes (a n : Z) : Z := a + n * 60000.

(** [day()], [hour()] and [minute()] of a dayjs whose wall-clock time is
    [wall]: the UTC fields of that many milliseconds; 1970-01-01 was a
    Thursday. *)
Definition day (wall : Z) : Z := (wall `div` 86400000 + 4) `mod` 7.
Definition hour (wall : Z) : Z := (wall `mod` 86400000) `div` 3600000.
Definition minute (wall : Z) : Z := (wall `mod` 3600000) `div` 60000.

End Dayjs.

(** ** Environment of a request *)

Record env := {
  now : Z;                            (* what [dayjs()] reads *)
  timezone_extended : bool;           (* [dayjs.extend(utc)] and [dayjs.extend(timezone)]
                                         have run in the process *)
  known_zone : string → bool;         (* the zone names the runtime accepts *)
  wallclock : string → Z → Z;         (* the wall-clock time of [d.tz(zone)] for the
                                         instant [d]: the milliseconds whose UTC
                                         fields are the fields of that dayjs *)
  engine : list Slot.t → list Slot.t; (* [sort] under a comparator that is not
                                         consistent *)
  users : list User.t;
  bookings : list Booking.t;
}.

Record request := {
  user : string;                      (* [req.query.user as string] *)
  dateFrom : Dayjs.t;
  dateTo : Dayjs.t;
}.

(** [d.tz(timeZone)] with the plugin installed: the [RangeError] of
    [toLocaleString] for a zone name the runtime does not know; otherwise the
    call returns, and the dayjs it returns holds the wall-clock time
    [tz e timeZone ms]. *)
Definition tz_returns (e : env) (timeZone : string) : completion unit :=
  if known_zone e timeZone then Normal () else Throw RangeError.

Definition tz (e : env) (timeZone : string) (ms : Z) : Z :=
  wallclock e timeZone ms.

(** [prisma.user.findUnique({ where: { username } })]. *)
Definition findUnique (e : env) (name : string) : option User.t :=
  List.find (λ u, bool_decide (User.username u = name)) (users e).

(** [prisma.booking.findMany] with the [where] clause of the slot-fetch
    variant. *)
Definition findMany (e : env) (uid from to : Z) : list Booking.t :=
  filter (λ b, Booking.userId b = uid
               ∧ Booking.status b = "ACCEPTED"%string
               ∧ Booking.confirmed b = true
               ∧ from ≤ Booking.startTime b ≤ to) (bookings e).

(** What [res.status(..).json(..)] sent. *)
Inductive response (B : Type) :=
  | Message (code : Z) (message : string)
  | Body (body : B).
Arguments Message {B} code message.
Arguments Body {B} body.

(** ** Working hours and slot selection (the same text in both handlers) *)

Module Hours.

(** *** Working-Hours Builder *)

Definition days : list string :=
  ["sunday"; "monday"; "tuesday"; "wednesday"; "thursday"; "friday"; "saturday"]%string.

(** [hh * 60 + mm] of [s.split(":")]. *)
Definition minutes_of (parts : list string) : JS.number :=
  JS.add (JS.mul (JS.parseInt_elem (parts !! 0%nat)) (JS.Num 60))
         (JS.parseInt_elem (parts !! 1%nat)).

(** The callback of [map]. *)
Definition time_to_slot (index : Z) (time : json) : completion Slot.t :=
  start_v ← member (Some time) "start";
  start ← call_split start_v;
  end_v ← member (Some time) "end";
  end_ ← call_split end_v;
  let startTime := minutes_of start in
  let endTime := minutes_of end_ in
  Normal (Slot.mk [index] startTime endTime).

(** [schedule.freeBusyTimes?.[day]?.map(..)]. *)
Definition times_of (freeBusyTimes : json) (day : string) (index : Z)
    : completion (option (list Slot.t)) :=
  match member_opt (Some freeBusyTimes) day with
  | None | Some JNull => Normal None
  | Some (JArray items) => times ← mapC (time_to_slot index) items; Normal (Some times)
  | Some _ => Throw TypeError
  end.

(** The callback of [days.forEach], threading [acc]. *)
Definition push_day (schedule : Schedule.t) (acc : list Slot.t) (entry : nat * string)
    : completion (list Slot.t) :=
  times ← times_of (Schedule.freeBusyTimes schedule) entry.2 (Z.of_nat entry.1);
  Normal (acc ++ default [] times).

(** The callback of [reduce]. *)
Definition reducer (acc : list Slot.t) (schedule : Schedule.t) : completion (list Slot.t) :=
  foldC (push_day schedule) acc (imap pair days).

Definition workhours (rawUser : User.t) : completion (list Slot.t) :=
  foldC reducer [] (User.Schedule rawUser).

Definition defaultAvailability (rawUser : User.t) : Slot.t :=
  Slot.mk [0; 1; 2; 3; 4; 5; 6]
          (JS.Num (User.startTime rawUser)) (JS.Num (User.endTime rawUser)).

(** [workhours?.length ? workhours : [defaultAvailability]]. *)
Definition or_default (rawUser : User.t) (workhours : list Slot.t) : list Slot.t :=
  if bool_decide (length workhours ≠ 0%nat) then workhours
  else [defaultAvailability rawUser].

(** *** [Array.prototype.sort]

    The comparator is [(a, b) => a.startTime - b.startTime]; [SortCompare]
    reads a NaN result as [+0].  When no key is NaN the comparator is
    consistent and the standard fixes the result: the ascending order in
    which equal keys keep their order, which [stable_sort] computes by
    insertion.  With a NaN key the comparator is not consistent and the order
    is left to the engine: it is [engine l], some rearrangement of [l]
    ([sort] reads [engine] only where it returns one). *)

Definition comparefn (a b : Slot.t) : JS.number :=
  JS.sub (Slot.startTime a) (Slot.startTime b).

Definition SortCompare (x y : Slot.t) : Z :=
  match comparefn x y with JS.NaN => 0 | JS.Num v => v end.

Fixpoint insert_slot (x : Slot.t) (l : list Slot.t) : list Slot.t :=
  match l with
  | [] => [x]
  | y :: l' =>
      if bool_decide (SortCompare x y ≤ 0) then x :: y :: l'
      else y :: insert_slot x l'
  end.

Definition stable_sort (l : list Slot.t) : list Slot.t := foldr insert_slot [] l.

Definition consistent (l : list Slot.t) : bool :=
  forallb (λ slot, negb (JS.isNaN (Slot.startTime slot))) l.

Definition sort (engine : list Slot.t → list Slot.t) (l : list Slot.t) : list Slot.t :=
  if consistent l then stable_sort l
  else if bool_decide (engine l ≡ₚ l) then engine l
  else l.

Definition workingHours (engine : list Slot.t → list Slot.t) (rawUser : User.t)
    : completion (list Slot.t) :=
  workhours ← workhours rawUser;
  Normal (sort engine (or_default rawUser workhours)).

(** *** Slot Resolver *)

(** The predicate of [workingHours.filter]. *)
Definition slot_matches (day startTime endTime : Z) (slot : Slot.t) : bool :=
  bool_decide (day ∈ Slot.days slot)
  && JS.ge (JS.Num startTime) (Slot.startTime slot)
  && JS.le (JS.Num startTime) (Slot.endTime slot)
  && JS.ge (JS.Num endTime) (Slot.startTime slot)
  && JS.le (JS.Num endTime) (Slot.endTime slot).

Definition selectedSlots (workingHours : list Slot.t) (day startTime endTime : Z)
    : list Slot.t :=
  filter (λ slot, slot_matches day startTime endTime slot) workingHours.

(** [d.tz(timeZone).day()] and [d.tz(timeZone).hour() * 60 + d.tz(timeZone).minute()]. *)
Definition local_day (e : env) (timeZone : string) (ms : Z) : Z :=
  Dayjs.day (tz e timeZone ms).
Definition local_minutes (e : env) (timeZone : string) (ms : Z) : Z :=
  Dayjs.hour (tz e timeZone ms) * 60 + Dayjs.minute (tz e timeZone ms).

End Hours.

(** ** The two handlers *)

Definition InvalidRange {B} : response B := Message 400 "Invalid time range given.".
Definition SlotTooLong {B} : response B := Message 400 "Cannot book a slot longer than 24 hours.".
Definition UserNotFound {B} : response B := Message 404 "No User Found".
Definition PastBooking {B} : response B := Message 400 "Cannot book past time.".
Definition InsufficientNotice {B} : response B :=
  Message 400 "Select a time after minimum notice period".

(** *** [src/pages/api/availability/[user]/slot.ts] *)

Module SlotApi.

Record body := mk {
  timeZone : string;
  busy : list Busy.t;
  selectedSlots : list Slot.t;
  available : bool;
}.

(** The callback of [bookings.map]. *)
Definition to_busy (e : env) (timeZone : string) (slot : Booking.t) : Busy.t :=
  let startTime := Hours.local_minutes e timeZone (Booking.startTime slot) in
  let endTime := Hours.local_minutes e timeZone (Booking.endTime slot) in
  Busy.mk startTime endTime.

(** The handler from the user lookup on ([prisma.user.findUnique] and what
    follows it); [from] and [to] are the two valid instants.  The file extends
    dayjs with the two plugins when it is loaded, so [dateFrom.tz] is a
    method here; the first call of it, after the sort, is where an unknown
    zone raises. *)
Definition resolve (e : env) (req : request) (from to : Z) : completion (response body) :=
  match findUnique e (user req) with
  | None => Normal UserNotFound
  | Some rawUser =>
      if bool_decide (from < now e) then Normal PastBooking
      else if bool_decide (User.minimumBookingNotice rawUser ≠ 0)
              && bool_decide (from < Dayjs.add_minutes (now e) (User.minimumBookingNotice rawUser))
      then Normal InsufficientNotice
      else
        workingHours ← Hours.workingHours (engine e) rawUser;
        let timeZone := User.timeZone rawUser in
        _ ← tz_returns e timeZone;
        let day := Hours.local_day e timeZone from in
        let startTime := Hours.local_minutes e timeZone from in
        let endTime := Hours.local_minutes e timeZone to in
        let selectedSlots := Hours.selectedSlots workingHours day startTime endTime in
        let bookings := findMany e (User.id rawUser) from to in
        let busy := to_busy e timeZone <$> bookings in
        Normal (Body (mk timeZone busy selectedSlots
                         (bool_decide (length selectedSlots ≠ 0%nat)
                          && negb (bool_decide (length bookings ≠ 0%nat)))))
  end.

Definition handler (e : env) (req : request) : completion (response body) :=
  if negb (Dayjs.isValid (dateFrom req)) || negb (Dayjs.isValid (dateTo req))
     || Dayjs.isAfter (dateFrom req) (dateTo req)
  then Normal InvalidRange
  else
    match dateFrom req, dateTo req with
    | Dayjs.At from, Dayjs.At to =>
        if bool_decide (24 ≤ Dayjs.diff_hours to from) then Normal SlotTooLong
        else resolve e req from to
    | _, _ => Normal InvalidRange     (* not reached: both dates are valid here *)
    end.

End SlotApi.

(** *** [src/unnamed/part_000] *)

Module AvailabilityApi.

Record body := mk {
  timeZone : string;
  workingHours : list Slot.t;
  available : bool;
}.

(** [dateFrom.tz(timeZone)] in this file, which imports dayjs and extends it
    with no plugin: [tz] is a method only if another module of the process
    has extended dayjs; otherwise the call is a [TypeError]. *)
Definition call_tz (e : env) (timeZone : string) : completion unit :=
  if timezone_extended e then tz_returns e timeZone else Throw TypeError.

Definition resolve (e : env) (req : request) (from to : Z) : completion (response body) :=
  match findUnique e (user req) with
  | None => Throw (Error "No user found")
  | Some rawUser =>
      workingHours ← Hours.workingHours (engine e) rawUser;
      let timeZone := User.timeZone rawUser in
      _ ← call_tz e timeZone;
      let day := Hours.local_day e timeZone from in
      let startTime := Hours.local_minutes e timeZone from in
      let endTime := Hours.local_minutes e timeZone to in
      let selectedSlots := Hours.selectedSlots workingHours day startTime endTime in
      Normal (Body (mk timeZone selectedSlots (bool_decide (length selectedSlots ≠ 0%nat))))
  end.

Definition handler (e : env) (req : request) : completion (response body) :=
  if negb (Dayjs.isValid (dateFrom req)) || negb (Dayjs.isValid (dateTo req))
     || Dayjs.isAfter (dateFrom req) (dateTo req)
  then Normal InvalidRange
  else
    match dateFrom req, dateTo req with
    | Dayjs.At from, Dayjs.At to => resolve e req from to
    | _, _ => Normal InvalidRange     (* not reached: both dates are valid here *)
    end.

End AvailabilityApi.

(** * Vocabulary of the specification *)

(** ** Reading a response *)

(** The request reached slot selection for [rawUser] with the valid instants
    [from] and [to] and the sorted working hours [wh]. *)
Record resolved (e : env) (req : request) (rawUser : User.t) (from to : Z)
    (wh : list Slot.t) : Prop := {
  resolved_user : findUnique e (user req) = Some rawUser;
  resolved_from : dateFrom req = Dayjs.At from;
  resolved_to : dateTo req = Dayjs.At to;
  resolved_order : from ≤ to;
  resolved_hours : Hours.workingHours (engine e) rawUser = Normal wh;
}.

(** ** Matching a window against an interval *)

(** [m ∈ [slot.startMinute, slot.endMinute]], both ends included. *)
Definition within (m : Z) (slot : Slot.t) : Prop :=
  ∃ lo hi, Slot.startTime slot = JS.Num lo ∧ Slot.endTime slot = JS.Num hi ∧ lo ≤ m ≤ hi.

Definition covers (day fromMinute toMinute : Z) (slot : Slot.t) : Prop :=
  day ∈ Slot.days slot ∧ within fromMinute slot ∧ within toMinute slot.

(** The list [sel] that a handler reports holds exactly the working-hour
    intervals of the user that cover the local coordinates of the window. *)
Definition selects (e : env) (req : request) (sel : list Slot.t) : Prop :=
  ∃ rawUser from to wh,
    resolved e req rawUser from to wh
    ∧ ∀ slot, slot ∈ sel ↔
        slot ∈ wh
        ∧ covers (Hours.local_day e (User.timeZone rawUser) from)
                 (Hours.local_minutes e (User.timeZone rawUser) from)
                 (Hours.local_minutes e (User.timeZone rawUser) to) slot.

(** ** Bookings against a window *)

(** A confirmed, accepted booking of the user. *)
Definition counted (rawUser : User.t) (b : Booking.t) : Prop :=
  Booking.userId b = User.id rawUser
  ∧ Booking.status b = "ACCEPTED"%string
  ∧ Booking.confirmed b = true.

(** The booking and the window have an instant in common. *)
Definition touches (b : Booking.t) (from to : Z) : Prop :=
  Booking.startTime b ≤ to ∧ from ≤ Booking.endTime b.

(** The booking begins inside the window, ends included. *)
Definition starts_within (b : Booking.t) (from to : Z) : Prop :=
  from ≤ Booking.startTime b ≤ to.

(** [available] is true exactly when a slot was selected and no counted
    booking meets the window in the sense of [meets]. *)
Definition available_iff (meets : Booking.t → Z → Z → Prop) (e : env) (req : request)
    : Prop :=
  ∀ b, SlotApi.handler e req = Normal (Body b) →
    ∃ rawUser from to wh,
      resolved e req rawUser from to wh
      ∧ (SlotApi.available b = true ↔
           SlotApi.selectedSlots b ≠ []
           ∧ ∀ bk, bk ∈ bookings e → counted rawUser bk → ¬ meets bk from to).

(** ** Schedule entries *)

(** The two strings of an entry [{ start: s, end: t }]. *)
Definition entry_strings (time : json) : option (string * string) :=
  match time with
  | JObject fields =>
      match fields !! "start"%string, fields !! "end"%string with
      | Some (JString s), Some (JString t) => Some (s, t)
      | _, _ => None
      end
  | _ => None
  end.

(** The interval that [hh * 60 + mm] gives for the strings [s] and [t]. *)
Definition slot_of (index : Z) (s t : string) : Slot.t :=
  Slot.mk [index] (Hours.minutes_of (JS.split ":" s)) (Hours.minutes_of (JS.split ":" t)).

(** The user's schedule holds, for weekday number [index], an entry with
    start string [s] and end string [t]. *)
Definition has_entry (rawUser : User.t) (index : nat) (s t : string) : Prop :=
  ∃ schedule day items time,
    schedule ∈ User.Schedule rawUser
    ∧ Hours.days !! index = Some day
    ∧ member_opt (Some (Schedule.freeBusyTimes schedule)) day = Some (JArray items)
    ∧ time ∈ items
    ∧ entry_strings time = Some (s, t).

(** Every stored weekday value is absent, [null], or an array of entries
    with a string [start] and a string [end]. *)
Definition day_ok (freeBusyTimes : json) (day : string) : bool :=
  match member_opt (Some freeBusyTimes) day with
  | None | Some JNull => true
  | Some (JArray items) => forallb (λ time, bool_decide (is_Some (entry_strings time))) items
  | Some _ => false
  end.

Definition schedule_ok (schedule : Schedule.t) : bool :=
  forallb (λ entry : nat * string, day_ok (Schedule.freeBusyTimes schedule) entry.2)
          (imap pair Hours.days).

Definition well_shaped (rawUser : User.t) : bool :=
  forallb schedule_ok (User.Schedule rawUser).

(** The intervals of a well-shaped schedule, in emission order. *)
Definition entry_slot (index : Z) (time : json) : option Slot.t :=
  (λ st : string * string, slot_of index st.1 st.2) <$> entry_strings time.

Definition day_slots (freeBusyTimes : json) (entry : nat * string) : list Slot.t :=
  match member_opt (Some freeBusyTimes) entry.2 with
  | Some (JArray items) => omap (entry_slot (Z.of_nat entry.1)) items
  | _ => []
  end.

Definition schedule_slots (schedule : Schedule.t) : list Slot.t :=
  imap pair Hours.days ≫= day_slots (Schedule.freeBusyTimes schedule).

Definition parsed (rawUser : User.t) : list Slot.t :=
  User.Schedule rawUser ≫= schedule_slots.

Definition is_decimal (c : ascii) : bool :=
  bool_decide (48 ≤ Z.of_N (N_of_ascii c) ≤ 57).

(** Two decimal digits. *)
Definition two_digits (s : string) : bool :=
  match s with
  | String a (String b EmptyString) => is_decimal a && is_decimal b
  | _ => false
  end.

(** Well formed as "HH:MM". *)
Definition well_formed_HHMM (s : string) : bool :=
  match JS.split ":" s with
  | [hh; mm] => two_digits hh && two_digits mm
  | _ => false
  end.

(** No minute component after a colon: no colon at all, or nothing after it. *)
Definition lacks_minute (s : string) : Prop :=
  match JS.split ":" s !! 1%nat with
  | None => True
  | Some mm => mm = EmptyString
  end.

(** The builder fails whenever the user has an entry with a malformed
    start or end string. *)
Definition fails_on_malformed (engine : list Slot.t → list Slot.t) (rawUser : User.t) : Prop :=
  ∀ index s t,
    has_entry rawUser index s t →
    well_formed_HHMM s = false ∨ well_formed_HHMM t = false →
    ∃ err, Hours.workingHours engine rawUser = Throw err.

(** ** Order of the working hours *)

(** JavaScript [a.startTime <= b.startTime]. *)
Definition start_le (a b : Slot.t) : Prop :=
  JS.le (Slot.startTime a) (Slot.startTime b) = true.

Definition ascending (l : list Slot.t) : Prop := StronglySorted start_le l.

(** Intervals with the same start minute come in [l'] in the order they have
    in [l]. *)
Definition keeps_ties (l l' : list Slot.t) : Prop :=
  ∀ k, filter (λ slot, Slot.startTime slot = k) l'
       = filter (λ slot, Slot.startTime slot = k) l.

Definition numeric_starts (l : list Slot.t) : Prop :=
  Forall (λ slot, JS.isNaN (Slot.startTime slot) = false) l.

(** What the builder and the resolver deliver for the emitted list [l]. *)
Definition ordered_output (engine : list Slot.t → list Slot.t) (rawUser : User.t)
    (l : list Slot.t) : Prop :=
  ∃ wh,
    Hours.workingHours engine rawUser = Normal wh
    ∧ wh ≡ₚ Hours.or_default rawUser l
    ∧ ascending wh
    ∧ keeps_ties (Hours.or_default rawUser l) wh
    ∧ ∀ day fromMinute toMinute,
        Hours.selectedSlots wh day fromMinute toMinute `sublist_of` wh.

(** ** Range of a request *)

Definition strictly_after (req : request) : Prop :=
  ∃ from to, dateFrom req = Dayjs.At from ∧ dateTo req = Dayjs.At to ∧ from < to.

Definition not_before (req : request) : Prop :=
  ∃ from to, dateFrom req = Dayjs.At from ∧ dateTo req = Dayjs.At to ∧ from ≤ to.

(** Both handlers reject with [InvalidRange] every request outside [ok]. *)
Definition rejects_unless (ok : request → Prop) (e : env) (req : request) : Prop :=
  ¬ ok req →
  SlotApi.handler e req = Normal InvalidRange
  ∧ AvailabilityApi.handler e req = Normal InvalidRange.

(** ** What the availability variant does not read *)

Definition set_notice (notice : Z) (rawUser : User.t) : User.t :=
  User.mk (User.id rawUser) (User.username rawUser) (User.timeZone rawUser)
          (User.startTime rawUser) (User.endTime rawUser) (User.Schedule rawUser) notice.

(** The environment [e] with another clock, other bookings and another
    minimum notice for every user. *)
Definition rewire (e : env) (clock : Z) (bs : list Booking.t) (notice : Z) : env :=
  {| now := clock; timezone_extended := timezone_extended e; known_zone := known_zone e;
     wallclock := wallclock e; engine := engine e;
     users := set_notice notice <$> users e; bookings := bs |}.

(** ** Concrete requests *)

Module Sample.

(** A process in which dayjs has the two plugins, whose runtime knows the
    zone "UTC" only, where the wall clock reads the instant itself, and whose
    engine leaves an array with a NaN key as it is. *)
Definition known : string → bool := λ timeZone, bool_decide (timeZone = "UTC"%string).
Definition utc : string → Z → Z := λ _ ms, ms.
Definition as_is : list Slot.t → list Slot.t := λ l, l.

(** Monday 2024-01-08, 10:00 and 10:30 UTC. *)
Definition t1000 : Z := 1704708000000.
Definition t1030 : Z := 1704709800000.

Definition entry (s t : string) : json :=
  JObject {[ "start"%string := JString s; "end"%string := JString t ]}.

(** No schedule, default hours 09:00-17:00. *)
Definition alice : User.t := User.mk 1 "alice" "UTC" 540 1020 [] 0.

(** Monday 10:00-11:00, an entry whose start is "9", and 08:00-09:00. *)
Definition bob : User.t :=
  User.mk 2 "bob" "UTC" 540 1020
    [Schedule.mk (JObject {[ "monday"%string :=
        JArray [entry "10:00" "11:00"; entry "9" "12:00"; entry "08:00" "09:00"] ]})]
    120.

(** Monday 10:00-11:00 twice over and 08:00-12:00, all well formed. *)
Definition carol : User.t :=
  User.mk 3 "carol" "UTC" 540 1020
    [Schedule.mk (JObject {[ "monday"%string :=
        JArray [entry "10:00" "11:00"; entry "08:00" "12:00"; entry "10:00" "10:30"] ]})]
    0.

(** A booking of alice from 09:30 to 10:15, and one from 10:15 to 10:45. *)
Definition early : Booking.t := Booking.mk 1 "ACCEPTED" true 1704706200000 1704708900000.
Definition inside : Booking.t := Booking.mk 1 "ACCEPTED" true 1704708900000 1704710700000.

Definition process (extended : bool) (bs : list Booking.t) : env :=
  {| now := 1704700000000; timezone_extended := extended; known_zone := known;
     wallclock := utc; engine := as_is; users := [alice; bob; carol]; bookings := bs |}.

Definition e0 : env := process true [].
Definition e_early : env := process true [early].
Definition e_inside : env := process true [inside].

(** The same process when no module has extended dayjs before part_000 runs. *)
Definition e_alone : env := process false [].

Definition ask (name : string) (from to : Z) : request :=
  {| user := name; dateFrom := Dayjs.At from; dateTo := Dayjs.At to |}.

End Sample.

(** * Further vocabulary *)

(** ** Requests and users, one field replaced *)

Definition with_dateTo (req : request) (d : Dayjs.t) : request :=
  {| user := user req; dateFrom := dateFrom req; dateTo := d |}.

Definition with_Schedule (rawUser : User.t) (rows : list Schedule.t) : User.t :=
  User.mk (User.id rawUser) (User.username rawUser) (User.timeZone rawUser)
          (User.startTime rawUser) (User.endTime rawUser) rows
          (User.minimumBookingNotice rawUser).

(** ** Passing the guards of the slot-fetch variant *)

Definition day_ms : Z := 86400000.

(** The request has two valid instants in order, less than 24 hours apart,
    and names the stored user [rawUser]. *)
Record known_user (e : env) (req : request) (rawUser : User.t) (from to : Z) : Prop := {
  known_from : dateFrom req = Dayjs.At from;
  known_to : dateTo req = Dayjs.At to;
  known_order : from ≤ to;
  known_span : to - from < day_ms;
  known_stored : findUnique e (user req) = Some rawUser;
}.

(** It also starts no earlier than the clock and respects the notice. *)
Record cleared (e : env) (req : request) (rawUser : User.t) (from to : Z) : Prop := {
  cleared_known : known_user e req rawUser from to;
  cleared_past : now e ≤ from;
  cleared_notice :
    User.minimumBookingNotice rawUser = 0
    ∨ now e + User.minimumBookingNotice rawUser * 60000 ≤ from;
}.

(** ** Ill-shaped schedules *)

(** A stored weekday value on which the builder raises: neither [null] nor
    an array of entries with string start and end. *)
Definition bad_day_value (v : json) : Prop :=
  match v with
  | JNull => False
  | JArray items => ∃ time, time ∈ items ∧ entry_strings time = None
  | _ => True
  end.

Definition ill_shaped (rawUser : User.t) : Prop :=
  ∃ schedule day v,
    schedule ∈ User.Schedule rawUser
    ∧ day ∈ Hours.days
    ∧ member_opt (Some (Schedule.freeBusyTimes schedule)) day = Some v
    ∧ bad_day_value v.

(** A stored weekday value that contributes no interval and no exception. *)
Definition silent_day_value (v : option json) : Prop :=
  v = None ∨ v = Some JNull ∨ v = Some (JArray []).

Definition silent_row (schedule : Schedule.t) : Prop :=
  ∀ day, day ∈ Hours.days →
    silent_day_value (member_opt (Some (Schedule.freeBusyTimes schedule)) day).

(** ** Intervals *)

(** Numeric ends, the end before the start. *)
Definition inverted (slot : Slot.t) : Prop :=
  ∃ lo hi, Slot.startTime slot = JS.Num lo ∧ Slot.endTime slot = JS.Num hi ∧ hi < lo.

(** Value of a decimal digit character. *)
Definition decimal (c : ascii) : Z := Z.of_N (N_of_ascii c) - 48.

(** The string [ab:cd] of four characters around a colon. *)
Definition hhmm (a b c d : ascii) : string :=
  String a (String b (String ":" (String c (String d EmptyString)))).

(** [s] has a colon. *)
Definition has_colon (s : string) : Prop := ":"%char ∈ String.list_ascii_of_string s.

(** The minutes of the day reported in [busy] for one booking. *)
Definition busy_of (e : env) (timeZone : string) (bk : Booking.t) : Busy.t :=
  Busy.mk (Hours.local_minutes e timeZone (Booking.startTime bk))
          (Hours.local_minutes e timeZone (Booking.endTime bk)).

Definition minute_of_day (m : Z) : Prop := 0 ≤ m < 1440.

(** ** More concrete requests *)

Module More.

(** A Tuesday entry whose start is the number 9; the Monday entry is fine. *)
Definition dave : User.t :=
  User.mk 4 "dave" "UTC" 540 1020
    [Schedule.mk (JObject {[ "monday"%string := JArray [Sample.entry "09:00" "17:00"];
                             "tuesday"%string :=
                               JArray [JObject {[ "start"%string := JNumber 9;
                                                  "end"%string := JString "17:00" ]}] ]})]
    0.

(** Default hours that end before they start. *)
Definition erin : User.t := User.mk 5 "erin" "UTC" 1020 540 [] 0.

(** A zone name that the runtime does not know. *)
Definition frank : User.t := User.mk 6 "frank" "Mars/Olympus" 540 1020 [] 0.

Definition process (extended : bool) : env :=
  {| now := 1704700000000; timezone_extended := extended; known_zone := Sample.known;
     wallclock := Sample.utc; engine := Sample.as_is;
     users := [Sample.alice; dave; erin; Sample.carol; frank];
     bookings := [Sample.inside; Sample.early] |}.

Definition e1 : env := process true.

(** The same process when no module has extended dayjs before part_000 runs. *)
Definition e1_alone : env := process false.

End More.

(** * The schedule handler: [src/pages/api/schedule/index.ts], lines 1 to 79

    [prisma.schedule] is a parameter: three calls over a table state [DB],
    each of which may raise, and a call that raises leaves the table as it
    was.  [session] is what [getSession] resolved to ([JNull] for no
    session), [body] is [req.body] ([None] when there is none). *)

Module ScheduleRow.
Record t := mk { id : Z; userId : option Z; freeBusyTimes : option json }.
End ScheduleRow.

Module ScheduleApi.

Record prisma (DB : Type) := {
  (* [create({ data: { freeBusyTimes, user: { connect: { id } } } })] *)
  create : option json → option json → DB → completion (ScheduleRow.t * DB);
  (* [findFirst({ where: { userId: { equals } } })] *)
  findFirst : option json → DB → completion (option ScheduleRow.t);
  (* [update({ data: { freeBusyTimes }, where: { id } })] *)
  update : option json → Z → DB → completion (ScheduleRow.t * DB);
}.
Arguments create {DB} _ _ _ _.
Arguments findFirst {DB} _ _ _.
Arguments update {DB} _ _ _ _.

Record body := mk { message : string; data : ScheduleRow.t }.

Definition Unable : response body := Message 500 "Unable to create schedule.".

(** [try { .. return res.status(200).json(..) } catch { return
    res.status(500).json(..) }] around a block that ends with its one write. *)
Definition try_catch {DB : Type} (db : DB) (block : completion (body * DB))
    : option (response body) * DB :=
  match block with
  | Normal (b, db') => (Some (Body b), db')
  | Throw _ => (Some Unable, db)
  end.

(** The [try] block of [POST]. *)
Definition post {DB : Type} (p : prisma DB) (session : json) (body : option json) (db : DB)
    : completion (ScheduleApi.body * DB) :=
  data ← member body "data";
  freeBusyTimes ← member data "freeBusyTimes";
  user ← member (Some session) "user";
  id ← member user "id";
  created ← create p freeBusyTimes id db;
  Normal (mk "created" created.1, created.2).

(** The [try] block of [PATCH]. *)
Definition patch {DB : Type} (p : prisma DB) (body : option json) (db : DB)
    : completion (ScheduleApi.body * DB) :=
  userId ← member body "userId";
  schedule ← findFirst p userId db;
  match schedule with
  | Some schedule =>
      data ← member body "data";
      freeBusyTimes ← member data "freeBusyTimes";
      updated ← update p freeBusyTimes (ScheduleRow.id schedule) db;
      Normal (mk "updated" updated.1, updated.2)
  | None =>
      data ← member body "data";
      freeBusyTimes ← member data "freeBusyTimes";
      user_id ← member body "user_id";
      created ← create p freeBusyTimes user_id db;
      Normal (mk "updated" created.1, created.2)
  end.

(** The handler: what it sent, if anything, and the table afterwards. *)
Definition handler {DB : Type} (p : prisma DB) (session : json) (method : string)
    (body : option json) (db : DB) : option (response ScheduleApi.body) * DB :=
  if String.eqb method "POST" then try_catch db (post p session body db)
  else if String.eqb method "PATCH" then try_catch db (patch p body db)
  else (None, db).

(** [req.body.data.freeBusyTimes]. *)
Definition body_freeBusyTimes (body : option json) : completion (option json) :=
  member body "data" ≫= λ data, member data "freeBusyTimes".

(** The answer and the table after the one write [w] of a [try] block that
    answers [{ message: label, data: row }]. *)
Definition written {DB : Type} (label : string) (db : DB) (w : completion (ScheduleRow.t * DB))
    : option (response ScheduleApi.body) * DB :=
  match w with
  | Normal (row, db') => (Some (Body (mk label row)), db')
  | Throw _ => (Some Unable, db)
  end.

(** A sample table for the examples: rows in a list, a new row at the end
    under the next id, users named by a number. *)
Definition next_id (db : list ScheduleRow.t) : Z :=
  foldr (λ row m, Z.max (ScheduleRow.id row + 1) m) 1 db.

Definition sample : prisma (list ScheduleRow.t) := {|
  create := λ freeBusyTimes id db,
    match id with
    | Some (JNumber n) =>
        let row := ScheduleRow.mk (next_id db) (Some n) freeBusyTimes in
        Normal (row, db ++ [row])
    | _ => Throw (Error "connect")
    end;
  findFirst := λ userId db,
    match userId with
    | Some (JNumber n) =>
        Normal (List.find (λ row, bool_decide (ScheduleRow.userId row = Some n)) db)
    | _ => Normal None
    end;
  update := λ freeBusyTimes id db,
    match List.find (λ row, bool_decide (ScheduleRow.id row = id)) db with
    | Some row =>
        let row' := ScheduleRow.mk id (ScheduleRow.userId row) freeBusyTimes in
        Normal (row', (λ r, if bool_decide (ScheduleRow.id r = id) then row' else r) <$> db)
    | None => Throw (Error "not found")
    end;
|}.

End ScheduleApi.

(** * The onboarding steps: [src/pages/api/schedule/index.ts], lines 348 to 416

    The second document of that file is the getting-started page.  Its
    [currentStep] state is a number; each handler reads the rendered value and
    asks for at most one [setCurrentStep]. *)

Module Onboarding.

Record integration := { credential : option json }.

(** The props that [detectStep] reads: [user.name], [user.timeZone],
    [integrations] and [schedules] ([None] for [null] or [undefined]). *)
Record props := {
  name : option string;
  timeZone : option string;
  integrations : option (list integration);
  schedules : option (list Z);
}.

Definition truthy (s : option string) : bool :=
  match s with
  | Some s => negb (String.eqb s "")
  | None => false
  end.

(** [integration.credential != null]. *)
Definition has_credential (i : integration) : bool :=
  match credential i with
  | None | Some JNull => false
  | Some _ => true
  end.

(** The four entries of [steps]: welcome, connect-calendar, set-availability,
    profile. *)
Definition steps_length : Z := 4.

(** The step that [detectStep] passes to [setCurrentStep]; [.some] on an
    absent [integrations] raises. *)
Definition detectStep (p : props) : completion Z :=
  let step := 0 in
  let hasSetUserNameOrTimeZone := truthy (name p) && truthy (timeZone p) in
  let step := if hasSetUserNameOrTimeZone then 1 else step in
  match integrations p with
  | None => Throw TypeError
  | Some integrations =>
      let hasConfigureCalendar := existsb has_credential integrations in
      let step := if hasConfigureCalendar then 2 else step in
      let hasSchedules :=
        match schedules p with
        | Some schedules => bool_decide (0 < length schedules)%nat
        | None => false
        end in
      let step := if hasSchedules then 3 else step in
      Normal step
  end.

Inductive action :=
  | setCurrentStep (step : Z)
  | completeOnboarding
  | nothing.

Definition incrementStep (currentStep : Z) : action :=
  let nextStep := currentStep + 1 in
  if bool_decide (steps_length ≤ nextStep) then completeOnboarding
  else setCurrentStep nextStep.

Definition decrementStep (currentStep : Z) : action :=
  let previous := currentStep - 1 in
  if bool_decide (previous < 0) then nothing else setCurrentStep previous.

Definition goToStep (step : Z) : action := setCurrentStep step.

(** What the page offers: the confirm and skip buttons, the previous button
    (rendered when [currentStep !== 0]), a progress bar segment (clickable
    for [index <= currentStep], [index] ranging over [steps]), and the
    detection on mount. *)
Inductive event :=
  | Confirm
  | Skip
  | Prev
  | Segment (index : nat)
  | Mount (p : props).

Definition react (currentStep : Z) (ev : event) : action :=
  match ev with
  | Confirm | Skip => incrementStep currentStep
  | Prev => if bool_decide (currentStep ≠ 0) then decrementStep currentStep else nothing
  | Segment index =>
      if bool_decide (Z.of_nat index < steps_length ∧ Z.of_nat index ≤ currentStep)
      then goToStep (Z.of_nat index) else nothing
  | Mount p =>
      match detectStep p with
      | Normal step => setCurrentStep step
      | Throw _ => nothing
      end
  end.

Definition after (currentStep : Z) (a : action) : Z :=
  match a with
  | setCurrentStep step => step
  | completeOnboarding | nothing => currentStep
  end.

(** The state after a sequence of events, each handled on the re-rendered
    state. *)
Definition run (currentStep : Z) (evs : list event) : Z :=
  foldl (λ s ev, after s (react s ev)) currentStep evs.

End Onboarding.

(** ** Sample requests to the schedule handler *)

Module Writes.

Definition week : json :=
  JObject {[ "monday"%string := JArray [Sample.entry "09:00" "17:00"] ]}.

Definition session7 : json :=
  JObject {[ "user"%string := JObject {[ "id"%string := JNumber 7 ]} ]}.

(** [{ data: { freeBusyTimes }, userId: 7 }], without [user_id]. *)
Definition body7 : option json :=
  Some (JObject {[ "data"%string := JObject {[ "freeBusyTimes"%string := week ]};
                   "userId"%string := JNumber 7 ]}).

Definition row7 : ScheduleRow.t := ScheduleRow.mk 1 (Some 7) None.

End Writes.

(** * Properties *)

(** ** [split] and [parseInt] on sample strings *)

Example split_ex1 : JS.split ":" "09:30" = ["09"; "30"]%string.
Proof. reflexivity. Qed.
Example split_ex2 : JS.split ":" "9" = ["9"]%string.
Proof. reflexivity. Qed.
Example split_ex3 : JS.split ":" "" = [""]%string.
Proof. reflexivity. Qed.
Example split_ex4 : JS.split ":" "1:2:3" = ["1"; "2"; "3"]%string.
Proof. reflexivity. Qed.
Example split_ex5 : JS.split ":" "9:" = ["9"; ""]%string.
Proof. reflexivity. Qed.
Example parseInt_ex1 : JS.parseInt "09" = JS.Num 9.
Proof. reflexivity. Qed.
Example parseInt_ex2 : JS.parseInt "  -12abc" = JS.Num (-12).
Proof. reflexivity. Qed.
Example parseInt_ex3 : JS.parseInt "" = JS.NaN.
Proof. reflexivity. Qed.
Example parseInt_ex4 : JS.parseInt "0x1f" = JS.Num 31.
Proof. reflexivity. Qed.
Example parseInt_ex5 : JS.parseInt_elem None = JS.NaN.
Proof. reflexivity. Qed.
Example parseInt_ex6 : JS.parseInt "30pm" = JS.Num 30.
Proof. reflexivity. Qed.
Example minutes_ex1 : Hours.minutes_of (JS.split ":" "09:30") = JS.Num 570.
Proof. reflexivity. Qed.
Example minutes_ex2 : Hours.minutes_of (JS.split ":" "9") = JS.NaN.
Proof. reflexivity. Qed.
Example minutes_ex3 : Hours.minutes_of (JS.split ":" "9:") = JS.NaN.
Proof. reflexivity. Qed.
Example malformed_ex1 : well_formed_HHMM "9" = false ∧ well_formed_HHMM "09:30" = true.
Proof. split; reflexivity. Qed.
Example local_ex1 :
  Hours.local_day Sample.e0 "UTC" Sample.t1000 = 1
  ∧ Hours.local_minutes Sample.e0 "UTC" Sample.t1000 = 600
  ∧ Hours.local_minutes Sample.e0 "UTC" Sample.t1030 = 630.
Proof. split_and!; reflexivity. Qed.

Example sort_ex1 :
  Hours.workingHours (engine Sample.e0) Sample.carol
  = Normal [Slot.mk [1] (JS.Num 480) (JS.Num 720); Slot.mk [1] (JS.Num 600) (JS.Num 660);
            Slot.mk [1] (JS.Num 600) (JS.Num 630)].
Proof. reflexivity. Qed.
Example sort_ex2 :
  Hours.workingHours (engine Sample.e0) Sample.bob
  = Normal [Slot.mk [1] (JS.Num 600) (JS.Num 660); Slot.mk [1] JS.NaN (JS.Num 720);
            Slot.mk [1] (JS.Num 480) (JS.Num 540)].
Proof. reflexivity. Qed.
Example sort_ex3 :
  Hours.workingHours (@rev Slot.t) Sample.bob
  = Normal [Slot.mk [1] (JS.Num 480) (JS.Num 540); Slot.mk [1] JS.NaN (JS.Num 720);
            Slot.mk [1] (JS.Num 600) (JS.Num 660)].
Proof. vm_compute. reflexivity. Qed.
Example tz_ex1 :
  AvailabilityApi.handler Sample.e_alone (Sample.ask "alice" Sample.t1000 Sample.t1030)
  = Throw TypeError.
Proof. reflexivity. Qed.

(** ** Reading the response of either handler *)

Lemma bind_Normal {A B} (c : completion A) (f : A → completion B) (b : B) :
  c ≫= f = Normal b → ∃ a, c = Normal a ∧ f a = Normal b.
Proof. destruct c as [a|err]; [eauto | discriminate]. Qed.

(** The guard [!dateFrom.isValid() || !dateTo.isValid() ||
    dateFrom.isAfter(dateTo)] on two valid dates. *)
Lemma range_guard_At (from to : Z) :
  negb (Dayjs.isValid (Dayjs.At from)) || negb (Dayjs.isValid (Dayjs.At to))
  || Dayjs.isAfter (Dayjs.At from) (Dayjs.At to)
  = bool_decide (to < from).
Proof. reflexivity. Qed.

Lemma slot_body_inv e req b :
  SlotApi.handler e req = Normal (Body b) →
  ∃ rawUser from to wh,
    resolved e req rawUser from to wh
    ∧ known_zone e (User.timeZone rawUser) = true
    ∧ Dayjs.diff_hours to from < 24
    ∧ now e ≤ from
    ∧ (User.minimumBookingNotice rawUser = 0
       ∨ Dayjs.add_minutes (now e) (User.minimumBookingNotice rawUser) ≤ from)
    ∧ b = SlotApi.mk (User.timeZone rawUser)
            (SlotApi.to_busy e (User.timeZone rawUser) <$> findMany e (User.id rawUser) from to)
            (Hours.selectedSlots wh
               (Hours.local_day e (User.timeZone rawUser) from)
               (Hours.local_minutes e (User.timeZone rawUser) from)
               (Hours.local_minutes e (User.timeZone rawUser) to))
            (bool_decide (length (Hours.selectedSlots wh
               (Hours.local_day e (User.timeZone rawUser) from)
               (Hours.local_minutes e (User.timeZone rawUser) from)
               (Hours.local_minutes e (User.timeZone rawUser) to)) ≠ 0%nat)
             && negb (bool_decide (length (findMany e (User.id rawUser) from to) ≠ 0%nat))).
Proof.
  unfold SlotApi.handler.
  destruct (dateFrom req) as [|from] eqn:Hf; [discriminate|].
  destruct (dateTo req) as [|to] eqn:Ht; [discriminate|].
  rewrite range_guard_At. case_bool_decide as Hord; [discriminate|].
  case_bool_decide as Hlen; [discriminate|].
  unfold SlotApi.resolve.
  destruct (findUnique e (user req)) as [rawUser|] eqn:Hu; [|discriminate].
  case_bool_decide as Hpast; [discriminate|].
  destruct (bool_decide (User.minimumBookingNotice rawUser ≠ 0) && _) eqn:Hnotice;
    [discriminate|].
  intros (wh & Hwh & Hb)%bind_Normal. cbv beta zeta in Hb.
  apply bind_Normal in Hb as ([] & Hzone & Hb). unfold tz_returns in Hzone.
  destruct (known_zone e (User.timeZone rawUser)) eqn:Hknown; [|discriminate].
  exists rawUser, from, to, wh. split_and!.
  - split; [done..|lia|done].
  - done.
  - lia.
  - lia.
  - apply andb_false_iff in Hnotice as [Hn|Hn]; apply bool_decide_eq_false in Hn.
    + left. destruct (decide (User.minimumBookingNotice rawUser = 0)); [done|contradiction].
    + right. lia.
  - by injection Hb.
Qed.

Lemma availability_body_inv e req b :
  AvailabilityApi.handler e req = Normal (Body b) →
  ∃ rawUser from to wh,
    resolved e req rawUser from to wh
    ∧ timezone_extended e = true
    ∧ known_zone e (User.timeZone rawUser) = true
    ∧ b = AvailabilityApi.mk (User.timeZone rawUser)
            (Hours.selectedSlots wh
               (Hours.local_day e (User.timeZone rawUser) from)
               (Hours.local_minutes e (User.timeZone rawUser) from)
               (Hours.local_minutes e (User.timeZone rawUser) to))
            (bool_decide (length (Hours.selectedSlots wh
               (Hours.local_day e (User.timeZone rawUser) from)
               (Hours.local_minutes e (User.timeZone rawUser) from)
               (Hours.local_minutes e (User.timeZone rawUser) to)) ≠ 0%nat)).
Proof.
  unfold AvailabilityApi.handler.
  destruct (dateFrom req) as [|from] eqn:Hf; [discriminate|].
  destruct (dateTo req) as [|to] eqn:Ht; [discriminate|].
  rewrite range_guard_At. case_bool_decide as Hord; [discriminate|].
  unfold AvailabilityApi.resolve.
  destruct (findUnique e (user req)) as [rawUser|] eqn:Hu; [|discriminate].
  intros (wh & Hwh & Hb)%bind_Normal. cbv beta zeta in Hb.
  apply bind_Normal in Hb as ([] & Hzone & Hb).
  unfold AvailabilityApi.call_tz, tz_returns in Hzone.
  destruct (timezone_extended e) eqn:Hext; [|discriminate].
  destruct (known_zone e (User.timeZone rawUser)) eqn:Hknown; [|discriminate].
  exists rawUser, from, to, wh. split_and!.
  - split; [done..|lia|done].
  - done.
  - done.
  - by injection Hb.
Qed.

(** ** Slot matching *)

Lemma ge_Num (m : Z) (a : JS.number) : JS.ge (JS.Num m) a = true ↔ ∃ lo, a = JS.Num lo ∧ lo ≤ m.
Proof.
  destruct a as [|lo]; simpl.
  - split; [discriminate | intros (lo & ? & _); discriminate].
  - rewrite bool_decide_eq_true. split; [eauto | intros (? & [= <-] & ?); done].
Qed.

Lemma le_Num (m : Z) (a : JS.number) : JS.le (JS.Num m) a = true ↔ ∃ hi, a = JS.Num hi ∧ m ≤ hi.
Proof.
  destruct a as [|hi]; simpl.
  - split; [discriminate | intros (hi & ? & _); discriminate].
  - rewrite bool_decide_eq_true. split; [eauto | intros (? & [= <-] & ?); done].
Qed.

Lemma within_spec (m : Z) (slot : Slot.t) :
  within m slot ↔
  JS.ge (JS.Num m) (Slot.startTime slot) = true ∧ JS.le (JS.Num m) (Slot.endTime slot) = true.
Proof.
  rewrite ge_Num, le_Num. unfold within. split.
  - intros (lo & hi & ? & ? & ?). split; [exists lo | exists hi]; split; [done|lia|done|lia].
  - intros [(lo & ? & ?) (hi & ? & ?)]. exists lo, hi. split_and!; [done..|lia].
Qed.

Lemma slot_matches_covers (day fromMinute toMinute : Z) (slot : Slot.t) :
  Hours.slot_matches day fromMinute toMinute slot = true ↔ covers day fromMinute toMinute slot.
Proof.
  unfold Hours.slot_matches, covers. rewrite !andb_true_iff, bool_decide_eq_true.
  rewrite !within_spec. tauto.
Qed.

Lemma elem_of_selectedSlots (wh : list Slot.t) (day fromMinute toMinute : Z) (slot : Slot.t) :
  slot ∈ Hours.selectedSlots wh day fromMinute toMinute ↔
  slot ∈ wh ∧ covers day fromMinute toMinute slot.
Proof.
  unfold Hours.selectedSlots. rewrite list_elem_of_filter, Is_true_true, slot_matches_covers.
  tauto.
Qed.

(** A window whose two local minutes sit on the two ends of an interval of
    the right weekday matches it. *)
Lemma boundary_matches (day lo hi : Z) (slot : Slot.t) :
  day ∈ Slot.days slot → Slot.startTime slot = JS.Num lo → Slot.endTime slot = JS.Num hi →
  lo ≤ hi →
  covers day lo hi slot ∧ covers day lo lo slot ∧ covers day hi hi slot.
Proof.
  intros Hday Hlo Hhi Hle. unfold covers, within.
  split_and!; try done; exists lo, hi; split_and!; done || lia.
Qed.

(** ** The builder, entry by entry *)

Lemma time_to_slot_spec (index : Z) (time : json) :
  Hours.time_to_slot index time
  = match entry_slot index time with Some slot => Normal slot | None => Throw TypeError end.
Proof.
  unfold Hours.time_to_slot, entry_slot, entry_strings.
  destruct time as [| | | |items|fields]; try reflexivity. simpl.
  destruct (fields !! "start"%string) as [[]|]; try reflexivity. simpl.
  destruct (fields !! "end"%string) as [[]|]; reflexivity.
Qed.

Section all_or_TypeError.
Context {A B : Type} (f : A → completion B) (ok : A → bool) (g : A → option B).
Hypothesis f_spec :
  ∀ x, f x = match g x with Some y => Normal y | None => Throw TypeError end.
Hypothesis ok_spec : ∀ x, ok x = bool_decide (is_Some (g x)).

Lemma mapC_spec (l : list A) :
  mapC f l = if forallb ok l then Normal (omap g l) else Throw TypeError.
Proof using f_spec ok_spec.
  induction l as [|x l IH]; [reflexivity|]. simpl. rewrite f_spec, ok_spec, IH.
  destruct (g x) as [y|]; simpl; [|reflexivity].
  destruct (forallb ok l); reflexivity.
Qed.
End all_or_TypeError.

Section append_or_TypeError.
Context {A : Type} (f : list Slot.t → A → completion (list Slot.t)).
Context (ok : A → bool) (g : A → list Slot.t).
Hypothesis f_spec :
  ∀ acc x, f acc x = if ok x then Normal (acc ++ g x) else Throw TypeError.

Lemma foldC_spec (l : list A) (acc : list Slot.t) :
  foldC f acc l = if forallb ok l then Normal (acc ++ (l ≫= g)) else Throw TypeError.
Proof using f_spec.
  revert acc. induction l as [|x l IH]; intros acc; simpl.
  - by rewrite app_nil_r.
  - rewrite f_spec. destruct (ok x); simpl; [|reflexivity].
    rewrite IH. destruct (forallb ok l); [|reflexivity]. by rewrite app_assoc.
Qed.
End append_or_TypeError.

Lemma push_day_spec (schedule : Schedule.t) (acc : list Slot.t) (entry : nat * string) :
  Hours.push_day schedule acc entry
  = if day_ok (Schedule.freeBusyTimes schedule) entry.2
    then Normal (acc ++ day_slots (Schedule.freeBusyTimes schedule) entry)
    else Throw TypeError.
Proof.
  unfold Hours.push_day, Hours.times_of, day_ok, day_slots.
  destruct (member_opt _ _) as [[| | | |items|]|]; simpl; rewrite ?app_nil_r; try reflexivity.
  rewrite (mapC_spec _ (λ time, bool_decide (is_Some (entry_strings time)))
             (entry_slot (Z.of_nat entry.1)) (time_to_slot_spec _)).
  - destruct (forallb _ items); reflexivity.
  - intros time. unfold entry_slot. by destruct (entry_strings time).
Qed.

Lemma reducer_spec (acc : list Slot.t) (schedule : Schedule.t) :
  Hours.reducer acc schedule
  = if schedule_ok schedule then Normal (acc ++ schedule_slots schedule) else Throw TypeError.
Proof.
  unfold Hours.reducer, schedule_ok, schedule_slots.
  apply (foldC_spec _ (λ entry : nat * string, day_ok (Schedule.freeBusyTimes schedule) entry.2)).
  apply push_day_spec.
Qed.

(** The builder either emits the intervals of every entry or throws a
    [TypeError]; it throws exactly on an ill-shaped schedule. *)
Lemma workhours_spec (rawUser : User.t) :
  Hours.workhours rawUser
  = if well_shaped rawUser then Normal (parsed rawUser) else Throw TypeError.
Proof.
  unfold Hours.workhours, well_shaped, parsed.
  rewrite (foldC_spec _ schedule_ok schedule_slots reducer_spec). reflexivity.
Qed.

Lemma elem_of_parsed (rawUser : User.t) (slot : Slot.t) :
  slot ∈ parsed rawUser ↔
  ∃ index s t, has_entry rawUser index s t ∧ slot = slot_of (Z.of_nat index) s t.
Proof.
  unfold parsed, schedule_slots, has_entry. rewrite list_elem_of_bind. split.
  - intros (schedule & (entry & Hslot & Hentry)%list_elem_of_bind & Hsch).
    apply elem_of_lookup_imap in Hentry as (index & day & -> & Hday).
    unfold day_slots in Hslot. cbn [fst snd] in Hslot.
    destruct (member_opt _ day) as [[| | | |items|]|] eqn:Hitems;
      try (by apply not_elem_of_nil in Hslot).
    apply list_elem_of_omap in Hslot as (time & Htime & Hslot).
    unfold entry_slot in Hslot. destruct (entry_strings time) as [[s t]|] eqn:Hst; [|done].
    injection Hslot as <-. exists index, s, t. split; [|done].
    by exists schedule, day, items, time.
  - intros (index & s & t & (schedule & day & items & time & Hsch & Hday & Hitems & Htime & Hst)
            & ->).
    exists schedule. split; [|done]. apply list_elem_of_bind. exists (index, day). split.
    + unfold day_slots. cbn [fst snd]. rewrite Hitems. apply list_elem_of_omap.
      exists time. split; [done|]. unfold entry_slot. by rewrite Hst.
    + apply elem_of_lookup_imap. by exists index, day.
Qed.

(** An emitted interval carries a single weekday. *)
Lemma parsed_single_day (rawUser : User.t) (slot : Slot.t) :
  slot ∈ parsed rawUser → ∃ index, Slot.days slot = [index].
Proof. intros (index & s & t & _ & ->)%elem_of_parsed. by eexists. Qed.

Lemma default_not_parsed (rawUser : User.t) :
  Hours.defaultAvailability rawUser ∉ parsed rawUser.
Proof. intros [index Hdays]%parsed_single_day. discriminate. Qed.

(** ** The sort *)

Lemma insert_slot_perm (x : Slot.t) (l : list Slot.t) : Hours.insert_slot x l ≡ₚ x :: l.
Proof.
  induction l as [|y l IH]; simpl; [done|].
  case_bool_decide; [done|]. rewrite IH. apply Permutation_swap.
Qed.

Lemma stable_sort_perm (l : list Slot.t) : Hours.stable_sort l ≡ₚ l.
Proof.
  induction l as [|x l IH]; simpl; [done|].
  unfold Hours.stable_sort in IH. by rewrite insert_slot_perm, IH.
Qed.

(** Whatever the engine, the sort rearranges. *)
Lemma sort_perm (engine : list Slot.t → list Slot.t) (l : list Slot.t) :
  Hours.sort engine l ≡ₚ l.
Proof.
  unfold Hours.sort. destruct (Hours.consistent l); [apply stable_sort_perm|].
  by case_bool_decide.
Qed.

Lemma consistent_spec (l : list Slot.t) : Hours.consistent l = true ↔ numeric_starts l.
Proof.
  unfold Hours.consistent, numeric_starts. rewrite forallb_forall, Forall_forall.
  split; intros Hl slot Hin.
  - apply negb_true_iff, Hl. by apply list_elem_of_In.
  - apply negb_true_iff, Hl. by apply list_elem_of_In.
Qed.

Lemma sort_numeric (engine : list Slot.t → list Slot.t) (l : list Slot.t) :
  numeric_starts l → Hours.sort engine l = Hours.stable_sort l.
Proof. intros Hl%consistent_spec. unfold Hours.sort. by rewrite Hl. Qed.

(** Stepping over [y] means that both keys are numbers and [y] is strictly
    smaller. *)
Lemma SortCompare_pos (x y : Slot.t) :
  ¬ Hours.SortCompare x y ≤ 0 →
  ∃ a b, Slot.startTime x = JS.Num a ∧ Slot.startTime y = JS.Num b ∧ b < a.
Proof.
  unfold Hours.SortCompare, Hours.comparefn.
  destruct (Slot.startTime x) as [|a], (Slot.startTime y) as [|b]; simpl; try lia.
  intros ?. exists a, b. split_and!; [done..|lia].
Qed.

Lemma SortCompare_le (x y : Slot.t) :
  JS.isNaN (Slot.startTime x) = false → JS.isNaN (Slot.startTime y) = false →
  Hours.SortCompare x y ≤ 0 → start_le x y.
Proof.
  unfold Hours.SortCompare, Hours.comparefn, start_le.
  destruct (Slot.startTime x) as [|a], (Slot.startTime y) as [|b]; simpl; try done.
  intros _ _ ?. apply bool_decide_eq_true. lia.
Qed.

Lemma start_le_trans (x y z : Slot.t) : start_le x y → start_le y z → start_le x z.
Proof.
  unfold start_le.
  destruct (Slot.startTime x), (Slot.startTime y), (Slot.startTime z); simpl; try done.
  rewrite !bool_decide_eq_true. lia.
Qed.

Lemma insert_slot_ascending (x : Slot.t) (l : list Slot.t) :
  JS.isNaN (Slot.startTime x) = false → numeric_starts l →
  ascending l → ascending (Hours.insert_slot x l).
Proof.
  unfold ascending, numeric_starts. intros Hx Hl Hs.
  induction Hs as [|y l Hs IH Hy]; simpl.
  - repeat constructor.
  - apply Forall_cons in Hl as [Hny Hl]. case_bool_decide as Hc.
    + apply SortCompare_le in Hc; [|done..].
      constructor; [by constructor|]. constructor; [done|].
      eapply Forall_impl; [exact Hy|]. intros z. by apply start_le_trans.
    + constructor; [by apply IH|]. rewrite insert_slot_perm. constructor; [|done].
      apply SortCompare_pos in Hc as (a & b & Ha & Hb & Hlt).
      unfold start_le. rewrite Ha, Hb. simpl. apply bool_decide_eq_true. lia.
Qed.

Lemma numeric_starts_perm (l l' : list Slot.t) : l ≡ₚ l' → numeric_starts l → numeric_starts l'.
Proof. unfold numeric_starts. by intros ->. Qed.

Lemma stable_sort_ascending (l : list Slot.t) :
  numeric_starts l → ascending (Hours.stable_sort l).
Proof.
  induction l as [|x l IH]; simpl; intros Hl.
  - constructor.
  - apply Forall_cons in Hl as [Hx Hl]. apply insert_slot_ascending; [done| |by apply IH].
    apply (numeric_starts_perm l); [by rewrite stable_sort_perm | done].
Qed.

Lemma sort_ascending (engine : list Slot.t → list Slot.t) (l : list Slot.t) :
  numeric_starts l → ascending (Hours.sort engine l).
Proof. intros Hl. rewrite sort_numeric by done. by apply stable_sort_ascending. Qed.

(** Insertion never steps over an interval with the same start minute. *)
Lemma filter_insert_slot (k : JS.number) (x : Slot.t) (l : list Slot.t) :
  filter (λ slot, Slot.startTime slot = k) (Hours.insert_slot x l)
  = filter (λ slot, Slot.startTime slot = k) (x :: l).
Proof.
  induction l as [|y l IH]; simpl; [done|].
  case_bool_decide as Hc; [done|].
  apply SortCompare_pos in Hc as (a & b & Ha & Hb & Hlt).
  rewrite (filter_cons _ y), IH, !filter_cons.
  destruct (decide (Slot.startTime x = k)) as [Hxk|Hxk],
           (decide (Slot.startTime y = k)) as [Hyk|Hyk]; try done.
  rewrite Ha in Hxk. rewrite Hb in Hyk. subst k. injection Hyk as ->. lia.
Qed.

Lemma stable_sort_keeps_ties (l : list Slot.t) : keeps_ties l (Hours.stable_sort l).
Proof.
  intros k. induction l as [|x l IH]; [done|].
  change (Hours.stable_sort (x :: l)) with (Hours.insert_slot x (Hours.stable_sort l)).
  by rewrite filter_insert_slot, !filter_cons, IH.
Qed.

Lemma sort_keeps_ties (engine : list Slot.t → list Slot.t) (l : list Slot.t) :
  numeric_starts l → keeps_ties l (Hours.sort engine l).
Proof. intros Hl. rewrite sort_numeric by done. apply stable_sort_keeps_ties. Qed.

Lemma selectedSlots_sublist (wh : list Slot.t) (day fromMinute toMinute : Z) :
  Hours.selectedSlots wh day fromMinute toMinute `sublist_of` wh.
Proof. apply sublist_filter. Qed.

Lemma workingHours_spec (engine : list Slot.t → list Slot.t) (rawUser : User.t) :
  Hours.workingHours engine rawUser
  = if well_shaped rawUser
    then Normal (Hours.sort engine (Hours.or_default rawUser (parsed rawUser)))
    else Throw TypeError.
Proof.
  unfold Hours.workingHours. rewrite workhours_spec. by destruct (well_shaped rawUser).
Qed.

Lemma workingHours_of_workhours (engine : list Slot.t → list Slot.t) (rawUser : User.t)
    (l : list Slot.t) :
  Hours.workhours rawUser = Normal l →
  Hours.workingHours engine rawUser = Normal (Hours.sort engine (Hours.or_default rawUser l)).
Proof. unfold Hours.workingHours. by intros ->. Qed.

Lemma workhours_Normal (rawUser : User.t) (l : list Slot.t) :
  Hours.workhours rawUser = Normal l ↔ well_shaped rawUser = true ∧ l = parsed rawUser.
Proof.
  rewrite workhours_spec. destruct (well_shaped rawUser); split.
  - by intros [= <-].
  - by intros [_ ->].
  - discriminate.
  - by intros [[=] _].
Qed.

Lemma or_default_numeric (rawUser : User.t) (l : list Slot.t) :
  numeric_starts l → numeric_starts (Hours.or_default rawUser l).
Proof.
  intros Hl. unfold Hours.or_default. case_bool_decide; [done|].
  by repeat constructor.
Qed.

(** ** Entries without a minute *)

Lemma add_NaN_r (a : JS.number) : JS.add a JS.NaN = JS.NaN.
Proof. by destruct a. Qed.

Lemma lacks_minute_NaN (s : string) :
  lacks_minute s → Hours.minutes_of (JS.split ":" s) = JS.NaN.
Proof.
  unfold lacks_minute, Hours.minutes_of.
  destruct (JS.split ":" s !! 1%nat) as [mm|]; [intros ->|intros _]; apply add_NaN_r.
Qed.

(** A string without a colon has a single part, hence no minute. *)
Lemma split_no_colon (s : string) :
  (∀ c, c ∈ String.list_ascii_of_string s → c ≠ ":"%char) → JS.split ":" s = [s].
Proof.
  induction s as [|c s IH]; simpl; intros Hs; [done|].
  destruct (Ascii.eqb_spec c ":") as [->|_].
  - destruct (Hs ":"%char); [left|done].
  - rewrite IH; [done|]. intros c' Hc'. apply Hs. by right.
Qed.

Lemma no_colon_lacks_minute (s : string) :
  (∀ c, c ∈ String.list_ascii_of_string s → c ≠ ":"%char) → lacks_minute s.
Proof. intros Hs. unfold lacks_minute. by rewrite split_no_colon. Qed.

Lemma NaN_start_never_matches (day fromMinute toMinute : Z) (slot : Slot.t) :
  Slot.startTime slot = JS.NaN → Hours.slot_matches day fromMinute toMinute slot = false.
Proof.
  intros Hs. unfold Hours.slot_matches. rewrite Hs. simpl. by rewrite andb_false_r.
Qed.

Lemma NaN_end_never_matches (day fromMinute toMinute : Z) (slot : Slot.t) :
  Slot.endTime slot = JS.NaN → Hours.slot_matches day fromMinute toMinute slot = false.
Proof.
  intros Hs. unfold Hours.slot_matches. rewrite Hs. simpl. by rewrite !andb_false_r.
Qed.

(** On a well-shaped schedule the builder returns, and every entry has its
    interval in the output; the default interval is absent as soon as there
    is an entry. *)
Lemma entry_emitted (engine : list Slot.t → list Slot.t) (rawUser : User.t) (index : nat)
    (s t : string) :
  well_shaped rawUser = true → has_entry rawUser index s t →
  Hours.workhours rawUser = Normal (parsed rawUser)
  ∧ slot_of (Z.of_nat index) s t ∈ parsed rawUser
  ∧ Hours.workingHours engine rawUser = Normal (Hours.sort engine (parsed rawUser))
  ∧ slot_of (Z.of_nat index) s t ∈ Hours.sort engine (parsed rawUser)
  ∧ Hours.defaultAvailability rawUser ∉ Hours.sort engine (parsed rawUser).
Proof.
  intros Hok Hentry.
  assert (Hin : slot_of (Z.of_nat index) s t ∈ parsed rawUser).
  { apply elem_of_parsed. by exists index, s, t. }
  assert (Hdef : Hours.or_default rawUser (parsed rawUser) = parsed rawUser).
  { unfold Hours.or_default. rewrite bool_decide_true; [done|].
    destruct (parsed rawUser); [by apply not_elem_of_nil in Hin | done]. }
  split_and!.
  - by rewrite workhours_spec, Hok.
  - done.
  - by rewrite workingHours_spec, Hok, Hdef.
  - by rewrite sort_perm.
  - rewrite sort_perm. apply default_not_parsed.
Qed.

Lemma bob_has_entry : has_entry Sample.bob 1 "9" "12:00".
Proof.
  eexists _, "monday"%string, _, (Sample.entry "9" "12:00").
  split_and!; [apply list_elem_of_here | reflexivity | reflexivity | | reflexivity].
  apply list_elem_of_further, list_elem_of_here.
Qed.

(** ** Claims on the builder *)

(** C3, as stated, fails: bob's schedule has the entry [{start: "9", end:
    "12:00"}] and the builder returns its three intervals. *)
Lemma malformed_entry_counterexample :
  ¬ fails_on_malformed (engine Sample.e0) Sample.bob.
Proof.
  intros Hfail.
  destruct (Hfail 1%nat "9"%string "12:00"%string bob_has_entry) as [err Herr].
  - left. reflexivity.
  - vm_compute in Herr. discriminate.
Qed.

(** C3, amended. For every schedule entry whose start or end string is
    malformed as "HH:MM", the builder, run on a schedule whose entries all
    have a string start and a string end, does not fail: it returns working
    hours that hold the interval [hh * 60 + mm] of the entry, and a string
    without a minute component gives NaN for its minute of the day. *)
Theorem malformed_entry_still_emitted (engine : list Slot.t → list Slot.t) (rawUser : User.t)
    (index : nat) (s t : string) :
  well_shaped rawUser = true →
  has_entry rawUser index s t →
  well_formed_HHMM s = false ∨ well_formed_HHMM t = false →
  ∃ wh,
    Hours.workingHours engine rawUser = Normal wh
    ∧ Slot.mk [Z.of_nat index] (Hours.minutes_of (JS.split ":" s))
                               (Hours.minutes_of (JS.split ":" t)) ∈ wh
    ∧ (lacks_minute s → Hours.minutes_of (JS.split ":" s) = JS.NaN)
    ∧ (lacks_minute t → Hours.minutes_of (JS.split ":" t) = JS.NaN).
Proof.
  intros Hok Hentry _.
  destruct (entry_emitted engine rawUser index s t Hok Hentry) as (_ & _ & Hwh & Hin & _).
  exists (Hours.sort engine (parsed rawUser)). split_and!; [done|done|..]; apply lacks_minute_NaN.
Qed.

Lemma malformed_entry_still_emitted_witness :
  ∃ wh,
    Hours.workingHours (engine Sample.e0) Sample.bob = Normal wh
    ∧ Slot.mk [1] (Hours.minutes_of (JS.split ":" "9"))
                  (Hours.minutes_of (JS.split ":" "12:00")) ∈ wh
    ∧ (lacks_minute "9" → Hours.minutes_of (JS.split ":" "9") = JS.NaN)
    ∧ (lacks_minute "12:00" → Hours.minutes_of (JS.split ":" "12:00") = JS.NaN).
Proof.
  apply (malformed_entry_still_emitted (engine Sample.e0) Sample.bob 1 "9" "12:00").
  - reflexivity.
  - exact bob_has_entry.
  - left. reflexivity.
Defined.

(** C4. A user whose schedule yields no parsed interval gets exactly one
    interval, on all seven weekdays, with the stored default start and end;
    when at least one interval was parsed the output is a rearrangement of
    the parsed intervals and the default is not among them. *)
Theorem default_only_without_parsed_intervals (engine : list Slot.t → list Slot.t)
    (rawUser : User.t) :
  (User.Schedule rawUser = [] → Hours.workhours rawUser = Normal [])
  ∧ (Hours.workhours rawUser = Normal [] →
       Hours.workingHours engine rawUser
       = Normal [Slot.mk [0; 1; 2; 3; 4; 5; 6]
                         (JS.Num (User.startTime rawUser)) (JS.Num (User.endTime rawUser))])
  ∧ (∀ l, Hours.workhours rawUser = Normal l → l ≠ [] →
       ∃ wh, Hours.workingHours engine rawUser = Normal wh
             ∧ wh ≡ₚ l
             ∧ Slot.mk [0; 1; 2; 3; 4; 5; 6]
                       (JS.Num (User.startTime rawUser)) (JS.Num (User.endTime rawUser)) ∉ wh).
Proof.
  split_and!.
  - unfold Hours.workhours. by intros ->.
  - intros Hl. by rewrite (workingHours_of_workhours _ _ _ Hl).
  - intros l Hl Hne. exists (Hours.sort engine l). split_and!.
    + rewrite (workingHours_of_workhours _ _ _ Hl). unfold Hours.or_default.
      rewrite bool_decide_true; [done|]. by destruct l.
    + apply sort_perm.
    + rewrite sort_perm. apply workhours_Normal in Hl as [_ ->].
      apply default_not_parsed.
Qed.

Lemma default_only_without_parsed_intervals_witness :
  Hours.workingHours (engine Sample.e0) Sample.alice
  = Normal [Slot.mk [0; 1; 2; 3; 4; 5; 6] (JS.Num 540) (JS.Num 1020)]
  ∧ ∃ wh, Hours.workingHours (engine Sample.e0) Sample.carol = Normal wh
          ∧ wh ≡ₚ parsed Sample.carol
          ∧ Slot.mk [0; 1; 2; 3; 4; 5; 6] (JS.Num 540) (JS.Num 1020) ∉ wh.
Proof.
  split.
  - apply (proj1 (proj2 (default_only_without_parsed_intervals (engine Sample.e0)
                           Sample.alice))).
    apply (proj1 (default_only_without_parsed_intervals (engine Sample.e0) Sample.alice)).
    reflexivity.
  - apply (proj2 (proj2 (default_only_without_parsed_intervals (engine Sample.e0)
                           Sample.carol))
             (parsed Sample.carol)).
    + reflexivity.
    + discriminate.
Defined.

(** An ascending list with a NaN start minute has that interval alone:
    NaN is neither below nor above any start minute. *)
Lemma ascending_NaN_alone (wh : list Slot.t) (x : Slot.t) :
  ascending wh → x ∈ wh → Slot.startTime x = JS.NaN → wh = [x].
Proof.
  intros Hasc Hin Hx. destruct Hasc as [|y l _ Hy]; [by apply elem_of_nil in Hin|].
  apply elem_of_cons in Hin as [->|Hin].
  - destruct l as [|z l]; [done|]. apply Forall_cons in Hy as [Hle _].
    unfold start_le in Hle. by rewrite Hx in Hle.
  - rewrite Forall_forall in Hy. specialize (Hy x Hin).
    unfold start_le in Hy. rewrite Hx in Hy. by destruct (Slot.startTime y).
Qed.

(** Whatever order an engine gives to bob's three intervals, it is not
    ascending. *)
Lemma bob_never_ascending (wh : list Slot.t) : wh ≡ₚ parsed Sample.bob → ¬ ascending wh.
Proof.
  intros Hperm Hasc.
  assert (Hin : Slot.mk [1] JS.NaN (JS.Num 720) ∈ wh).
  { rewrite Hperm. apply list_elem_of_further, list_elem_of_here. }
  apply (ascending_NaN_alone _ _ Hasc) in Hin; [|done]. subst wh.
  by apply Permutation_length in Hperm.
Qed.

Lemma singleton_ascending (x : Slot.t) : ascending [x].
Proof. repeat constructor. Qed.

Lemma or_default_nonempty (rawUser : User.t) (l : list Slot.t) :
  l ≠ [] → Hours.or_default rawUser l = l.
Proof. intros Hne. unfold Hours.or_default. rewrite bool_decide_true; [done|]. by destruct l. Qed.

(** The output is ascending exactly when no start minute is NaN or the list
    has a single interval. *)
Lemma ascending_iff_numeric (rawUser : User.t) (l wh : list Slot.t) :
  wh ≡ₚ Hours.or_default rawUser l →
  (numeric_starts l → ascending wh) →
  ascending wh ↔ numeric_starts l ∨ length l = 1%nat.
Proof.
  intros Hperm Hnum. split.
  - intros Hasc. destruct (decide (numeric_starts l)) as [|Hnan]; [by left|right].
    apply not_Forall_Exists in Hnan; [|intros slot; apply _].
    apply Exists_exists in Hnan as (x & Hin & Hx).
    assert (Hne : l ≠ []) by (intros ->; by apply elem_of_nil in Hin).
    rewrite (or_default_nonempty _ _ Hne) in Hperm.
    assert (wh = [x]) as ->.
    { apply (ascending_NaN_alone wh x Hasc); [by rewrite Hperm|].
      destruct (Slot.startTime x) eqn:Hstart; [done|].
      exfalso. apply Hx. cbv beta. by rewrite Hstart. }
    apply Permutation_length in Hperm. simpl in Hperm. lia.
  - intros [Hl|Hone]; [by apply Hnum|].
    destruct l as [|x [|y l]]; try discriminate.
    rewrite or_default_nonempty in Hperm by done.
    apply Permutation_singleton_r in Hperm as ->. apply singleton_ascending.
Qed.

(** C5, as stated, fails: bob's entries start at 600, NaN and 480 in that
    order, and no arrangement of three intervals of which one starts at NaN
    is ascending: whatever the engine does with them, the output is not
    sorted. *)
Lemma unsorted_with_NaN_start :
  Hours.workhours Sample.bob = Normal (parsed Sample.bob)
  ∧ Slot.startTime <$> parsed Sample.bob = [JS.Num 600; JS.NaN; JS.Num 480]
  ∧ ¬ ∃ engine, ordered_output engine Sample.bob (parsed Sample.bob).
Proof.
  split_and!; [reflexivity..|].
  intros (engine & wh & _ & Hperm & Hasc & _).
  by apply (bob_never_ascending wh).
Qed.

(** C5, amended. For every list the builder emits, its output is a
    rearrangement of the working-hours list, and the resolver's output is a
    subsequence of it; provided no start minute of the list is NaN, the
    output is ascending by start minute and intervals of equal start minute
    keep their encounter order.  The output is ascending in no other case
    but that of a single interval. *)
Theorem working_hours_order (engine : list Slot.t → list Slot.t) (rawUser : User.t)
    (l : list Slot.t) :
  Hours.workhours rawUser = Normal l →
  ∃ wh,
    Hours.workingHours engine rawUser = Normal wh
    ∧ wh ≡ₚ Hours.or_default rawUser l
    ∧ (numeric_starts l → ascending wh ∧ keeps_ties (Hours.or_default rawUser l) wh)
    ∧ (ascending wh ↔ numeric_starts l ∨ length l = 1%nat)
    ∧ ∀ day fromMinute toMinute,
        Hours.selectedSlots wh day fromMinute toMinute `sublist_of` wh.
Proof.
  intros Hl. exists (Hours.sort engine (Hours.or_default rawUser l)).
  assert (Hasc : numeric_starts l →
                 ascending (Hours.sort engine (Hours.or_default rawUser l))).
  { intros Hnum. by apply sort_ascending, or_default_numeric. }
  split_and!.
  - by apply workingHours_of_workhours.
  - apply sort_perm.
  - intros Hnum. split; [by apply Hasc|]. by apply sort_keeps_ties, or_default_numeric.
  - apply (ascending_iff_numeric rawUser); [apply sort_perm | exact Hasc].
  - intros. apply selectedSlots_sublist.
Qed.

Lemma working_hours_order_witness :
  ∃ wh,
    Hours.workingHours (engine Sample.e0) Sample.carol = Normal wh
    ∧ wh ≡ₚ Hours.or_default Sample.carol (parsed Sample.carol)
    ∧ ascending wh
    ∧ keeps_ties (Hours.or_default Sample.carol (parsed Sample.carol)) wh.
Proof.
  destruct (working_hours_order (engine Sample.e0) Sample.carol (parsed Sample.carol) eq_refl)
    as (wh & Hwh & Hperm & Hsorted & _ & _).
  assert (Hnum : numeric_starts (parsed Sample.carol)) by by repeat constructor.
  exists wh. split_and!; [done|done|by apply Hsorted..].
Defined.

(** C10. A schedule entry whose start or end string lacks a colon-delimited
    minute is still emitted, with NaN for that minute of the day; the
    interval satisfies the matching predicate for no window; and the working
    hours hold it and not the default interval. *)
Theorem minute_less_entry_is_NaN_interval (engine : list Slot.t → list Slot.t)
    (rawUser : User.t) (index : nat) (s t : string) :
  well_shaped rawUser = true →
  has_entry rawUser index s t →
  lacks_minute s ∨ lacks_minute t →
  ∃ slot,
    slot = Slot.mk [Z.of_nat index] (Hours.minutes_of (JS.split ":" s))
                                    (Hours.minutes_of (JS.split ":" t))
    ∧ (lacks_minute s → Slot.startTime slot = JS.NaN)
    ∧ (lacks_minute t → Slot.endTime slot = JS.NaN)
    ∧ (∃ l, Hours.workhours rawUser = Normal l ∧ slot ∈ l ∧ l ≠ [])
    ∧ (∀ day fromMinute toMinute, Hours.slot_matches day fromMinute toMinute slot = false)
    ∧ (∃ wh, Hours.workingHours engine rawUser = Normal wh
             ∧ slot ∈ wh
             ∧ Hours.defaultAvailability rawUser ∉ wh).
Proof.
  intros Hok Hentry Hlacks.
  destruct (entry_emitted engine rawUser index s t Hok Hentry)
    as (Hl & Hin & Hwh & Hinwh & Hdef).
  exists (slot_of (Z.of_nat index) s t). split_and!.
  - reflexivity.
  - apply lacks_minute_NaN.
  - apply lacks_minute_NaN.
  - exists (parsed rawUser). split_and!; [done..|].
    intros Hnil. rewrite Hnil in Hin. by apply not_elem_of_nil in Hin.
  - intros day fromMinute toMinute. destruct Hlacks as [Hs|Ht].
    + by apply NaN_start_never_matches, lacks_minute_NaN.
    + by apply NaN_end_never_matches, lacks_minute_NaN.
  - by exists (Hours.sort engine (parsed rawUser)).
Qed.

Lemma minute_less_entry_is_NaN_interval_witness :
  ∃ slot,
    slot = Slot.mk [1] (Hours.minutes_of (JS.split ":" "9"))
                       (Hours.minutes_of (JS.split ":" "12:00"))
    ∧ (lacks_minute "9" → Slot.startTime slot = JS.NaN)
    ∧ (lacks_minute "12:00" → Slot.endTime slot = JS.NaN)
    ∧ (∃ l, Hours.workhours Sample.bob = Normal l ∧ slot ∈ l ∧ l ≠ [])
    ∧ (∀ day fromMinute toMinute, Hours.slot_matches day fromMinute toMinute slot = false)
    ∧ (∃ wh, Hours.workingHours (engine Sample.e0) Sample.bob = Normal wh
             ∧ slot ∈ wh
             ∧ Hours.defaultAvailability Sample.bob ∉ wh).
Proof.
  apply (minute_less_entry_is_NaN_interval (engine Sample.e0) Sample.bob 1 "9" "12:00").
  - reflexivity.
  - exact bob_has_entry.
  - left. exact I.
Defined.

(** ** Guards *)

Lemma diff_hours_day (from to : Z) :
  from ≤ to → (24 ≤ Dayjs.diff_hours to from ↔ 24 * 3600000 ≤ to - from).
Proof.
  intros Hle. unfold Dayjs.diff_hours. rewrite Z.quot_div_nonneg by lia. split.
  - intros H. pose proof (Z.mul_div_le (to - from) 3600000). lia.
  - intros H. apply Z.div_le_lower_bound; lia.
Qed.

(** The range check of both handlers, as written in the source, is the
    negation of [not_before]. *)
Lemma range_guard (req : request) :
  negb (Dayjs.isValid (dateFrom req)) || negb (Dayjs.isValid (dateTo req))
  || Dayjs.isAfter (dateFrom req) (dateTo req) = true
  ↔ ¬ not_before req.
Proof.
  unfold not_before.
  destruct (dateFrom req) as [|from]; [split; [by intros _ (? & ? & [=] & _)|done]|].
  destruct (dateTo req) as [|to]; [split; [by intros _ (? & ? & _ & [=] & _)|done]|].
  rewrite range_guard_At, bool_decide_eq_true. split.
  - intros Hlt (? & ? & [= <-] & [= <-] & Hle). lia.
  - intros Hno. destruct (decide (to < from)); [done|].
    destruct Hno. exists from, to. split_and!; [done..|lia].
Qed.

Lemma handler_not_before e req from to :
  dateFrom req = Dayjs.At from → dateTo req = Dayjs.At to → from ≤ to →
  SlotApi.handler e req
  = (if bool_decide (24 ≤ Dayjs.diff_hours to from) then Normal SlotTooLong
     else SlotApi.resolve e req from to)
  ∧ AvailabilityApi.handler e req = AvailabilityApi.resolve e req from to.
Proof.
  intros Hf Ht Hle. unfold SlotApi.handler, AvailabilityApi.handler.
  rewrite Hf, Ht, range_guard_At, bool_decide_false by lia. done.
Qed.

Lemma handler_before e req :
  ¬ not_before req →
  SlotApi.handler e req = Normal InvalidRange
  ∧ AvailabilityApi.handler e req = Normal InvalidRange.
Proof.
  intros Hno. unfold SlotApi.handler, AvailabilityApi.handler.
  destruct (dateFrom req) as [|from] eqn:Hf; [done|].
  destruct (dateTo req) as [|to] eqn:Ht; [done|].
  rewrite range_guard_At. case_bool_decide; [done|].
  destruct Hno. exists from, to. split_and!; [done..|lia].
Qed.

Lemma bind_never {A B} (c : completion A) (f : A → completion B) (r : B) :
  (∀ a, f a ≠ Normal r) → c ≫= f ≠ Normal r.
Proof. intros Hf. destruct c as [a|err]; [apply Hf | discriminate]. Qed.

Lemma slot_resolve_not_InvalidRange e req from to :
  SlotApi.resolve e req from to ≠ Normal InvalidRange.
Proof.
  unfold SlotApi.resolve.
  destruct (findUnique e (user req)) as [rawUser|]; [|discriminate].
  case_bool_decide; [discriminate|].
  destruct (_ && _); [discriminate|].
  apply bind_never. intros wh. cbv beta zeta. apply bind_never. discriminate.
Qed.

(** Past the range check the availability variant sends a body or throws. *)
Lemma availability_resolve_no_message e req from to code message :
  AvailabilityApi.resolve e req from to ≠ Normal (Message code message).
Proof.
  unfold AvailabilityApi.resolve.
  destruct (findUnique e (user req)) as [rawUser|]; [|discriminate].
  apply bind_never. intros wh. cbv beta zeta. apply bind_never. discriminate.
Qed.

Lemma tz_returns_known (e : env) (timeZone : string) :
  known_zone e timeZone = true → tz_returns e timeZone = Normal ().
Proof. unfold tz_returns. by intros ->. Qed.

Lemma tz_returns_unknown (e : env) (timeZone : string) :
  known_zone e timeZone = false → tz_returns e timeZone = Throw RangeError.
Proof. unfold tz_returns. by intros ->. Qed.

(** The availability variant on a stored user: the builder, the sort, the
    call of [dateFrom.tz], then the body. *)
Lemma availability_resolve_stored e req from to rawUser :
  findUnique e (user req) = Some rawUser →
  AvailabilityApi.resolve e req from to
  = Hours.workingHours (engine e) rawUser ≫= λ wh,
    AvailabilityApi.call_tz e (User.timeZone rawUser) ≫= λ _,
    Normal (Body (AvailabilityApi.mk (User.timeZone rawUser)
              (Hours.selectedSlots wh
                 (Hours.local_day e (User.timeZone rawUser) from)
                 (Hours.local_minutes e (User.timeZone rawUser) from)
                 (Hours.local_minutes e (User.timeZone rawUser) to))
              (bool_decide (length (Hours.selectedSlots wh
                 (Hours.local_day e (User.timeZone rawUser) from)
                 (Hours.local_minutes e (User.timeZone rawUser) from)
                 (Hours.local_minutes e (User.timeZone rawUser) to)) ≠ 0%nat)))).
Proof. intros Hu. unfold AvailabilityApi.resolve. by rewrite Hu. Qed.

Lemma availability_resolve_body e req from to rawUser :
  findUnique e (user req) = Some rawUser → well_shaped rawUser = true →
  timezone_extended e = true → known_zone e (User.timeZone rawUser) = true →
  ∃ b wh,
    AvailabilityApi.resolve e req from to = Normal (Body b)
    ∧ Hours.workingHours (engine e) rawUser = Normal wh
    ∧ AvailabilityApi.timeZone b = User.timeZone rawUser
    ∧ AvailabilityApi.workingHours b
      = Hours.selectedSlots wh
          (Hours.local_day e (User.timeZone rawUser) from)
          (Hours.local_minutes e (User.timeZone rawUser) from)
          (Hours.local_minutes e (User.timeZone rawUser) to)
    ∧ AvailabilityApi.available b
      = bool_decide (length (AvailabilityApi.workingHours b) ≠ 0%nat).
Proof.
  intros Hu Hok Hext Hknown. rewrite (availability_resolve_stored e req from to rawUser Hu).
  unfold AvailabilityApi.call_tz. rewrite Hext, (tz_returns_known _ _ Hknown).
  rewrite workingHours_spec, Hok. eexists _, _. split; [reflexivity|]. by split_and!.
Qed.

(** Loaded in a process where dayjs has not been extended, the availability
    variant raises on [dateFrom.tz] for every stored user whose schedule the
    builder accepts. *)
Lemma availability_resolve_alone e req from to rawUser :
  findUnique e (user req) = Some rawUser → well_shaped rawUser = true →
  timezone_extended e = false →
  AvailabilityApi.resolve e req from to = Throw TypeError.
Proof.
  intros Hu Hok Hext. rewrite (availability_resolve_stored e req from to rawUser Hu).
  unfold AvailabilityApi.call_tz. by rewrite Hext, workingHours_spec, Hok.
Qed.

Lemma span_day (from to : Z) :
  from ≤ to → (24 ≤ Dayjs.diff_hours to from ↔ day_ms ≤ to - from).
Proof. intros Hle. rewrite diff_hours_day by done. unfold day_ms. lia. Qed.

(** The handler on a request with two valid instants. *)
Lemma slot_handler_valid (e : env) (req : request) (from to : Z) :
  dateFrom req = Dayjs.At from → dateTo req = Dayjs.At to →
  SlotApi.handler e req
  = if bool_decide (to < from) then Normal InvalidRange
    else if bool_decide (day_ms ≤ to - from) then Normal SlotTooLong
    else SlotApi.resolve e req from to.
Proof.
  intros Hf Ht. unfold SlotApi.handler. rewrite Hf, Ht, range_guard_At.
  case_bool_decide as Hord; [done|].
  by rewrite (bool_decide_ext _ _ (span_day from to ltac:(lia))).
Qed.

Lemma resolve_known (e : env) (req : request) (rawUser : User.t) (from to : Z) :
  known_user e req rawUser from to →
  SlotApi.handler e req
  = if bool_decide (from < now e) then Normal PastBooking
    else if bool_decide (User.minimumBookingNotice rawUser ≠ 0)
            && bool_decide (from < Dayjs.add_minutes (now e) (User.minimumBookingNotice rawUser))
    then Normal InsufficientNotice
    else
      Hours.workingHours (engine e) rawUser ≫= λ wh,
      tz_returns e (User.timeZone rawUser) ≫= λ _,
        let sel := Hours.selectedSlots wh
                     (Hours.local_day e (User.timeZone rawUser) from)
                     (Hours.local_minutes e (User.timeZone rawUser) from)
                     (Hours.local_minutes e (User.timeZone rawUser) to) in
        let found := findMany e (User.id rawUser) from to in
        Normal (Body (SlotApi.mk (User.timeZone rawUser)
                        (SlotApi.to_busy e (User.timeZone rawUser) <$> found) sel
                        (bool_decide (length sel ≠ 0%nat)
                         && negb (bool_decide (length found ≠ 0%nat))))).
Proof.
  intros [Hf Ht Hle Hspan Hu].
  rewrite (slot_handler_valid e req from to Hf Ht).
  rewrite !bool_decide_false by lia. unfold SlotApi.resolve. by rewrite Hu.
Qed.

(** Past the five checks: the builder, the sort, the first [dateFrom.tz],
    then the body. *)
Lemma resolve_cleared (e : env) (req : request) (rawUser : User.t) (from to : Z) :
  cleared e req rawUser from to →
  SlotApi.handler e req
  = Hours.workingHours (engine e) rawUser ≫= λ wh,
    tz_returns e (User.timeZone rawUser) ≫= λ _,
      let sel := Hours.selectedSlots wh
                   (Hours.local_day e (User.timeZone rawUser) from)
                   (Hours.local_minutes e (User.timeZone rawUser) from)
                   (Hours.local_minutes e (User.timeZone rawUser) to) in
      let found := findMany e (User.id rawUser) from to in
      Normal (Body (SlotApi.mk (User.timeZone rawUser)
                      (SlotApi.to_busy e (User.timeZone rawUser) <$> found) sel
                      (bool_decide (length sel ≠ 0%nat)
                       && negb (bool_decide (length found ≠ 0%nat))))).
Proof.
  intros [Hk Hpast Hnotice]. rewrite (resolve_known e req rawUser from to Hk).
  rewrite bool_decide_false by lia.
  replace (bool_decide (User.minimumBookingNotice rawUser ≠ 0) && _) with false; [done|].
  symmetry. apply andb_false_iff. unfold Dayjs.add_minutes.
  destruct Hnotice as [Hz|Hz]; [left|right]; apply bool_decide_eq_false; lia.
Qed.

(** A body of the slot-fetch variant comes from a request that passed the
    five checks. *)
Lemma slot_body_cleared e req b :
  SlotApi.handler e req = Normal (Body b) →
  ∃ rawUser from to wh,
    cleared e req rawUser from to
    ∧ Hours.workingHours (engine e) rawUser = Normal wh
    ∧ known_zone e (User.timeZone rawUser) = true.
Proof.
  intros Hb.
  apply slot_body_inv in Hb as (rawUser & from & to & wh & [Hu Hf Ht Hle Hwh] & Hknown & Hspan
                                 & Hpast & Hnotice & _).
  exists rawUser, from, to, wh. split_and!; [|done..].
  split; [split; try done|done|].
  - apply Z.nle_gt. intros Hlong. apply (span_day from to Hle) in Hlong. lia.
  - destruct Hnotice as [?|Hn]; [by left|right]. unfold Dayjs.add_minutes in Hn. lia.
Qed.

(** C1. In both variants, an interval of the user's working hours is in the
    reported selection exactly when its days contain the local weekday of
    [dateFrom] and the local minute of the day of [dateFrom] and of [dateTo]
    both lie in [[startTime, endTime]], ends included.  This holds of every
    body either variant sends, and either variant sends one: the slot-fetch
    variant for every request that passes its five checks, the availability
    variant for every stored user and good range when dayjs has been extended
    with the time-zone plugin, the stored schedule being one that the builder
    accepts and the user's zone one that the runtime knows. *)
Theorem selected_exactly_when_covering (e : env) (req : request) :
  (∀ b, SlotApi.handler e req = Normal (Body b) → selects e req (SlotApi.selectedSlots b))
  ∧ (∀ b, AvailabilityApi.handler e req = Normal (Body b) →
          selects e req (AvailabilityApi.workingHours b))
  ∧ (∀ rawUser from to,
       cleared e req rawUser from to → well_shaped rawUser = true →
       known_zone e (User.timeZone rawUser) = true →
       ∃ b wh,
         SlotApi.handler e req = Normal (Body b)
         ∧ Hours.workingHours (engine e) rawUser = Normal wh
         ∧ ∀ slot, slot ∈ SlotApi.selectedSlots b ↔
             slot ∈ wh
             ∧ covers (Hours.local_day e (User.timeZone rawUser) from)
                      (Hours.local_minutes e (User.timeZone rawUser) from)
                      (Hours.local_minutes e (User.timeZone rawUser) to) slot)
  ∧ (∀ rawUser from to,
       dateFrom req = Dayjs.At from → dateTo req = Dayjs.At to → from ≤ to →
       findUnique e (user req) = Some rawUser → well_shaped rawUser = true →
       timezone_extended e = true → known_zone e (User.timeZone rawUser) = true →
       ∃ b wh,
         AvailabilityApi.handler e req = Normal (Body b)
         ∧ Hours.workingHours (engine e) rawUser = Normal wh
         ∧ ∀ slot, slot ∈ AvailabilityApi.workingHours b ↔
             slot ∈ wh
             ∧ covers (Hours.local_day e (User.timeZone rawUser) from)
                      (Hours.local_minutes e (User.timeZone rawUser) from)
                      (Hours.local_minutes e (User.timeZone rawUser) to) slot).
Proof.
  split_and!.
  - intros b Hb.
    apply slot_body_inv in Hb as (rawUser & from & to & wh & Hres & _ & _ & _ & _ & ->).
    exists rawUser, from, to, wh. split; [done|]. intros slot. simpl.
    apply elem_of_selectedSlots.
  - intros b Hb.
    apply availability_body_inv in Hb as (rawUser & from & to & wh & Hres & _ & _ & ->).
    exists rawUser, from, to, wh. split; [done|]. intros slot. simpl.
    apply elem_of_selectedSlots.
  - intros rawUser from to Hc Hok Hknown.
    rewrite (resolve_cleared e req rawUser from to Hc), (tz_returns_known _ _ Hknown).
    rewrite workingHours_spec, Hok. eexists _, _. split; [reflexivity|]. split; [done|].
    intros slot. simpl. apply elem_of_selectedSlots.
  - intros rawUser from to Hf Ht Hle Hu Hok Hext Hknown.
    destruct (handler_not_before e req from to Hf Ht Hle) as [_ ->].
    destruct (availability_resolve_body e req from to rawUser Hu Hok Hext Hknown)
      as (b & wh & Hb & Hwh & _ & Hsel & _).
    exists b, wh. split_and!; [done..|]. intros slot. rewrite Hsel.
    apply elem_of_selectedSlots.
Qed.

Lemma selected_exactly_when_covering_witness :
  (∃ b, SlotApi.handler Sample.e0 (Sample.ask "carol" Sample.t1000 Sample.t1030)
        = Normal (Body b)
        ∧ Slot.mk [1] (JS.Num 600) (JS.Num 630) ∈ SlotApi.selectedSlots b)
  ∧ (∃ b, AvailabilityApi.handler Sample.e0 (Sample.ask "carol" Sample.t1000 Sample.t1030)
          = Normal (Body b)
          ∧ Slot.mk [1] (JS.Num 600) (JS.Num 630) ∈ AvailabilityApi.workingHours b).
Proof.
  pose proof (selected_exactly_when_covering Sample.e0
                (Sample.ask "carol" Sample.t1000 Sample.t1030)) as (_ & _ & Hslot & Hav).
  assert (Hcovers : Slot.mk [1] (JS.Num 600) (JS.Num 630)
                    ∈ Hours.stable_sort (parsed Sample.carol)
                    ∧ covers 1 600 630 (Slot.mk [1] (JS.Num 600) (JS.Num 630))).
  { split; [apply list_elem_of_further, list_elem_of_further, list_elem_of_here|].
    apply boundary_matches; [apply list_elem_of_here|reflexivity|reflexivity|lia]. }
  split.
  - destruct (Hslot Sample.carol Sample.t1000 Sample.t1030) as (b & wh & Hb & Hwh & Hsel).
    + split; [split; [reflexivity..| | |reflexivity]| |left; reflexivity];
        vm_compute; congruence.
    + reflexivity.
    + reflexivity.
    + exists b. split; [exact Hb|]. apply Hsel. injection Hwh as <-. exact Hcovers.
  - destruct (Hav Sample.carol Sample.t1000 Sample.t1030) as (b & wh & Hb & Hwh & Hsel);
      [reflexivity|reflexivity|vm_compute; congruence|reflexivity..|].
    exists b. split; [exact Hb|]. apply Hsel. injection Hwh as <-. exact Hcovers.
Defined.

(** C6. A window of 24 hours or more is answered with [SlotTooLong] by the
    slot-fetch variant; the availability variant goes on to resolution, where
    it never sends that message: it answers a stored user with the intervals
    selected for the two local minutes of the window when dayjs has been
    extended with the time-zone plugin, and raises on [dateFrom.tz] when it
    has not. *)
Theorem day_long_window (e : env) (req : request) (from to : Z) :
  dateFrom req = Dayjs.At from → dateTo req = Dayjs.At to →
  24 * 3600000 ≤ to - from →
  SlotApi.handler e req = Normal SlotTooLong
  ∧ AvailabilityApi.handler e req = AvailabilityApi.resolve e req from to
  ∧ AvailabilityApi.handler e req ≠ Normal SlotTooLong
  ∧ (∀ rawUser, findUnique e (user req) = Some rawUser → well_shaped rawUser = true →
       timezone_extended e = true → known_zone e (User.timeZone rawUser) = true →
       ∃ b wh,
         AvailabilityApi.handler e req = Normal (Body b)
         ∧ Hours.workingHours (engine e) rawUser = Normal wh
         ∧ AvailabilityApi.workingHours b
           = Hours.selectedSlots wh
               (Hours.local_day e (User.timeZone rawUser) from)
               (Hours.local_minutes e (User.timeZone rawUser) from)
               (Hours.local_minutes e (User.timeZone rawUser) to))
  ∧ (∀ rawUser, findUnique e (user req) = Some rawUser → well_shaped rawUser = true →
       timezone_extended e = false →
       AvailabilityApi.handler e req = Throw TypeError).
Proof.
  intros Hf Ht Hspan.
  destruct (handler_not_before e req from to Hf Ht) as [Hslot Hav]; [lia|].
  split_and!.
  - rewrite Hslot, bool_decide_true; [done|]. apply diff_hours_day; lia.
  - done.
  - rewrite Hav. apply availability_resolve_no_message.
  - intros rawUser Hu Hok Hext Hknown. rewrite Hav.
    destruct (availability_resolve_body e req from to rawUser Hu Hok Hext Hknown)
      as (b & wh & Hb & Hwh & _ & Hsel & _).
    by exists b, wh.
  - intros rawUser Hu Hok Hext. rewrite Hav.
    by apply (availability_resolve_alone e req from to rawUser).
Qed.

Lemma day_long_window_witness :
  SlotApi.handler Sample.e0 (Sample.ask "alice" Sample.t1000 (Sample.t1000 + 25 * 3600000))
  = Normal SlotTooLong
  ∧ (∃ b, AvailabilityApi.handler Sample.e0
            (Sample.ask "alice" Sample.t1000 (Sample.t1000 + 25 * 3600000))
          = Normal (Body b)
          ∧ AvailabilityApi.workingHours b
            = [Slot.mk [0; 1; 2; 3; 4; 5; 6] (JS.Num 540) (JS.Num 1020)])
  ∧ AvailabilityApi.handler Sample.e_alone
      (Sample.ask "alice" Sample.t1000 (Sample.t1000 + 25 * 3600000))
    = Throw TypeError.
Proof.
  destruct (day_long_window Sample.e0
              (Sample.ask "alice" Sample.t1000 (Sample.t1000 + 25 * 3600000))
              Sample.t1000 (Sample.t1000 + 25 * 3600000) eq_refl eq_refl)
    as (Hslot & _ & _ & Hbody & _); [vm_compute; discriminate|].
  destruct (day_long_window Sample.e_alone
              (Sample.ask "alice" Sample.t1000 (Sample.t1000 + 25 * 3600000))
              Sample.t1000 (Sample.t1000 + 25 * 3600000) eq_refl eq_refl)
    as (_ & _ & _ & _ & Halone); [vm_compute; discriminate|].
  split_and!.
  - exact Hslot.
  - destruct (Hbody Sample.alice) as (b & wh & Hb & Hwh & Hsel); [reflexivity..|].
    exists b. split; [exact Hb|]. rewrite Hsel. injection Hwh as <-. reflexivity.
  - apply (Halone Sample.alice); reflexivity.
Defined.

(** C7, as stated, fails: a window whose two instants are equal is not
    rejected; alice gets a body from both handlers. *)
Lemma equal_instants_counterexample :
  ¬ rejects_unless strictly_after Sample.e0 (Sample.ask "alice" Sample.t1000 Sample.t1000).
Proof.
  intros Hrej. destruct Hrej as [Hslot _].
  - intros (from & to & [= <-] & [= <-] & Hlt). lia.
  - vm_compute in Hslot. discriminate.
Qed.

(** C7, amended. In both variants a request is rejected with [InvalidRange]
    exactly when one of the two dates is invalid or [dateTo] is before
    [dateFrom]; a window whose two instants are equal passes the check. *)
Theorem range_check (e : env) (req : request) :
  (SlotApi.handler e req = Normal InvalidRange ↔ ¬ not_before req)
  ∧ (AvailabilityApi.handler e req = Normal InvalidRange ↔ ¬ not_before req).
Proof.
  split; (split; [|intros Hno; by destruct (handler_before e req Hno)]).
  - intros Hinv (from & to & Hf & Ht & Hle).
    destruct (handler_not_before e req from to Hf Ht Hle) as [Hslot _].
    rewrite Hslot in Hinv. case_bool_decide; [discriminate|].
    by apply slot_resolve_not_InvalidRange in Hinv.
  - intros Hinv (from & to & Hf & Ht & Hle).
    destruct (handler_not_before e req from to Hf Ht Hle) as [_ Hav].
    rewrite Hav in Hinv. by apply availability_resolve_no_message in Hinv.
Qed.

Lemma range_check_witness :
  SlotApi.handler Sample.e0 (Sample.ask "alice" Sample.t1000 Sample.t1000)
    ≠ Normal InvalidRange
  ∧ AvailabilityApi.handler Sample.e0 (Sample.ask "alice" Sample.t1000 Sample.t1000)
    ≠ Normal InvalidRange
  ∧ SlotApi.handler Sample.e0 (Sample.ask "alice" Sample.t1030 Sample.t1000)
    = Normal InvalidRange.
Proof.
  pose proof (range_check Sample.e0 (Sample.ask "alice" Sample.t1000 Sample.t1000))
    as [Hslot Hav].
  pose proof (range_check Sample.e0 (Sample.ask "alice" Sample.t1030 Sample.t1000))
    as [Hrev _].
  assert (Heq : not_before (Sample.ask "alice" Sample.t1000 Sample.t1000)).
  { exists Sample.t1000, Sample.t1000. split_and!; [reflexivity..|lia]. }
  split_and!.
  - intros H. by apply Hslot in H.
  - intros H. by apply Hav in H.
  - apply Hrev. intros (from & to & [= <-] & [= <-] & Hle). vm_compute in Hle. by destruct Hle.
Defined.

(** C9. In the slot-fetch variant a bad range is answered with the range
    error whoever the user is, and a request with a good range that names no
    stored user is answered with [UserNotFound] even when [dateFrom] is in
    the past. *)
Theorem slot_check_order (e : env) (req : request) :
  (¬ not_before req → SlotApi.handler e req = Normal InvalidRange)
  ∧ (∀ from to,
       dateFrom req = Dayjs.At from → dateTo req = Dayjs.At to → from ≤ to →
       24 * 3600000 ≤ to - from →
       SlotApi.handler e req = Normal SlotTooLong)
  ∧ (∀ from to,
       dateFrom req = Dayjs.At from → dateTo req = Dayjs.At to → from ≤ to →
       to - from < 24 * 3600000 →
       findUnique e (user req) = None →
       from < now e →
       SlotApi.handler e req = Normal UserNotFound
       ∧ SlotApi.handler e req ≠ Normal PastBooking).
Proof.
  split_and!.
  - intros Hno. by destruct (handler_before e req Hno).
  - intros from to Hf Ht Hle Hspan.
    destruct (handler_not_before e req from to Hf Ht Hle) as [-> _].
    rewrite bool_decide_true; [done|]. by apply diff_hours_day.
  - intros from to Hf Ht Hle Hspan Hu _.
    destruct (handler_not_before e req from to Hf Ht Hle) as [-> _].
    rewrite bool_decide_false.
    + unfold SlotApi.resolve. rewrite Hu. split; [done|discriminate].
    + rewrite diff_hours_day by done. lia.
Qed.

Lemma slot_check_order_witness :
  SlotApi.handler Sample.e0 (Sample.ask "nobody" Sample.t1030 Sample.t1000)
  = Normal InvalidRange
  ∧ SlotApi.handler Sample.e0 (Sample.ask "nobody" 0 (25 * 3600000)) = Normal SlotTooLong
  ∧ SlotApi.handler Sample.e0 (Sample.ask "nobody" 0 1800000) = Normal UserNotFound.
Proof.
  split_and!.
  - apply (proj1 (slot_check_order Sample.e0 (Sample.ask "nobody" Sample.t1030 Sample.t1000))).
    intros (from & to & [= <-] & [= <-] & Hle). vm_compute in Hle. by destruct Hle.
  - apply (proj1 (proj2 (slot_check_order Sample.e0 (Sample.ask "nobody" 0 (25 * 3600000))))
             0 (25 * 3600000)); [reflexivity..| |]; vm_compute; discriminate.
  - apply (proj2 (proj2 (slot_check_order Sample.e0 (Sample.ask "nobody" 0 1800000)))
             0 1800000); [reflexivity..| | | reflexivity |];
      vm_compute; (reflexivity || discriminate).
Defined.

(** ** The availability variant *)

Lemma not_before_dec (req : request) : not_before req ∨ ¬ not_before req.
Proof.
  unfold not_before.
  destruct (dateFrom req) as [|from]; [right; by intros (? & ? & [=] & _)|].
  destruct (dateTo req) as [|to]; [right; by intros (? & ? & _ & [=] & _)|].
  destruct (decide (from ≤ to)) as [Hle|Hgt].
  - left. by exists from, to.
  - right. intros (? & ? & [= <-] & [= <-] & ?). done.
Qed.

Lemma find_fmap {A} (p : A → bool) (f : A → A) (l : list A) :
  (∀ x, p (f x) = p x) → List.find p (f <$> l) = f <$> List.find p l.
Proof.
  intros Hp. induction l as [|x l IH]; simpl; [done|].
  rewrite Hp. by destruct (p x).
Qed.

Lemma availability_rewire (e : env) (req : request) (clock : Z) (bs : list Booking.t)
    (notice : Z) :
  AvailabilityApi.handler (rewire e clock bs notice) req = AvailabilityApi.handler e req.
Proof.
  unfold AvailabilityApi.handler, AvailabilityApi.resolve, findUnique.
  destruct (dateFrom req) as [|from]; [done|]. destruct (dateTo req) as [|to]; [done|].
  rewrite range_guard_At. case_bool_decide; [done|]. simpl.
  rewrite find_fmap by done.
  destruct (List.find _ (users e)) as [rawUser|]; done.
Qed.

(** C8. The availability variant sends no message but [InvalidRange], and
    that for a bad range only.  With a good range, and dayjs extended with
    the time-zone plugin, it answers a stored user with a body that holds
    exactly the working-hour intervals that cover the window and whose
    [available] says whether there is one, whatever the span of the window,
    the clock, the minimum notice and the bookings; without the plugin it
    raises on [dateFrom.tz]; and it throws when no user is stored under the
    name. *)
Theorem availability_checks_range_only (e : env) (req : request) :
  (∀ code message,
     AvailabilityApi.handler e req = Normal (Message code message) →
     code = 400 ∧ message = "Invalid time range given."%string ∧ ¬ not_before req)
  ∧ (∀ rawUser from to,
       dateFrom req = Dayjs.At from → dateTo req = Dayjs.At to → from ≤ to →
       findUnique e (user req) = Some rawUser → well_shaped rawUser = true →
       timezone_extended e = true → known_zone e (User.timeZone rawUser) = true →
       ∃ b wh,
         AvailabilityApi.handler e req = Normal (Body b)
         ∧ Hours.workingHours (engine e) rawUser = Normal wh
         ∧ AvailabilityApi.timeZone b = User.timeZone rawUser
         ∧ (∀ slot, slot ∈ AvailabilityApi.workingHours b ↔
              slot ∈ wh
              ∧ covers (Hours.local_day e (User.timeZone rawUser) from)
                       (Hours.local_minutes e (User.timeZone rawUser) from)
                       (Hours.local_minutes e (User.timeZone rawUser) to) slot)
         ∧ AvailabilityApi.workingHours b `sublist_of` wh
         ∧ AvailabilityApi.available b
           = bool_decide (length (AvailabilityApi.workingHours b) ≠ 0%nat))
  ∧ (∀ rawUser,
       not_before req → findUnique e (user req) = Some rawUser →
       well_shaped rawUser = true → timezone_extended e = false →
       AvailabilityApi.handler e req = Throw TypeError)
  ∧ (not_before req → findUnique e (user req) = None →
       AvailabilityApi.handler e req = Throw (Error "No user found"))
  ∧ (∀ clock bs notice,
       AvailabilityApi.handler (rewire e clock bs notice) req
       = AvailabilityApi.handler e req).
Proof.
  split_and!.
  - intros code message Hm.
    destruct (not_before_dec req) as [(from & to & Hf & Ht & Hle)|Hno].
    + destruct (handler_not_before e req from to Hf Ht Hle) as [_ Hav].
      rewrite Hav in Hm. by apply availability_resolve_no_message in Hm.
    + destruct (handler_before e req Hno) as [_ Hav]. rewrite Hav in Hm.
      by injection Hm as <- <-.
  - intros rawUser from to Hf Ht Hle Hu Hok Hext Hknown.
    destruct (handler_not_before e req from to Hf Ht Hle) as [_ ->].
    destruct (availability_resolve_body e req from to rawUser Hu Hok Hext Hknown)
      as (b & wh & Hb & Hwh & Htz & Hsel & Havail).
    exists b, wh. split_and!; [done..| | |done].
    + intros slot. rewrite Hsel. apply elem_of_selectedSlots.
    + rewrite Hsel. apply selectedSlots_sublist.
  - intros rawUser (from & to & Hf & Ht & Hle) Hu Hok Hext.
    destruct (handler_not_before e req from to Hf Ht Hle) as [_ ->].
    by apply (availability_resolve_alone e req from to rawUser).
  - intros (from & to & Hf & Ht & Hle) Hu.
    destruct (handler_not_before e req from to Hf Ht Hle) as [_ ->].
    unfold AvailabilityApi.resolve. by rewrite Hu.
  - apply availability_rewire.
Qed.

Lemma availability_checks_range_only_witness :
  (∃ b, AvailabilityApi.handler Sample.e_inside (Sample.ask "alice" 36000000 216000000)
        = Normal (Body b)
        ∧ Slot.mk [0; 1; 2; 3; 4; 5; 6] (JS.Num 540) (JS.Num 1020)
          ∈ AvailabilityApi.workingHours b
        ∧ AvailabilityApi.available b
          = bool_decide (length (AvailabilityApi.workingHours b) ≠ 0%nat))
  ∧ AvailabilityApi.handler Sample.e_alone (Sample.ask "alice" 36000000 216000000)
    = Throw TypeError
  ∧ AvailabilityApi.handler Sample.e0 (Sample.ask "nobody" Sample.t1000 Sample.t1030)
    = Throw (Error "No user found").
Proof.
  split_and!.
  - destruct (proj1 (proj2 (availability_checks_range_only Sample.e_inside
                              (Sample.ask "alice" 36000000 216000000)))
                Sample.alice 36000000 216000000)
      as (b & wh & Hb & Hwh & _ & Hsel & _ & Havail);
      [reflexivity|reflexivity|vm_compute; congruence|reflexivity..|].
    exists b. split_and!; [exact Hb| |exact Havail].
    apply Hsel. injection Hwh as <-. split; [apply list_elem_of_here|].
    split_and!; [apply list_elem_of_further, list_elem_of_further, list_elem_of_further,
                   list_elem_of_further, list_elem_of_here|..];
      exists 540, 1020; split_and!; (reflexivity || (vm_compute; congruence)).
  - apply (proj1 (proj2 (proj2 (availability_checks_range_only Sample.e_alone
                                  (Sample.ask "alice" 36000000 216000000)))) Sample.alice).
    + exists 36000000, 216000000. split_and!; [reflexivity..|]. vm_compute. discriminate.
    + reflexivity.
    + reflexivity.
    + reflexivity.
  - apply (proj1 (proj2 (proj2 (proj2 (availability_checks_range_only Sample.e0
                                  (Sample.ask "nobody" Sample.t1000 Sample.t1030)))))).
    + exists Sample.t1000, Sample.t1030. split_and!; [reflexivity..|]. vm_compute. discriminate.
    + reflexivity.
Defined.

(** ** Bookings *)

Lemma findMany_nil (e : env) (rawUser : User.t) (from to : Z) :
  findMany e (User.id rawUser) from to = [] ↔
  ∀ bk, bk ∈ bookings e → counted rawUser bk → ¬ starts_within bk from to.
Proof.
  unfold findMany, counted, starts_within. split.
  - intros Hnil bk Hin (Hid & Hst & Hc) Hw.
    eapply filter_nil_not_elem_of; [exact Hnil| |exact Hin]. simpl. done.
  - intros Hnone. apply elem_of_nil_inv. intros bk [(Hid & Hst & Hc & Hw) Hin]%list_elem_of_filter.
    by apply (Hnone bk).
Qed.

Lemma length_ne_0 {A} (l : list A) : bool_decide (length l ≠ 0%nat) = true ↔ l ≠ [].
Proof. rewrite bool_decide_eq_true. by destruct l. Qed.

Lemma length_eq_0 {A} (l : list A) : negb (bool_decide (length l ≠ 0%nat)) = true ↔ l = [].
Proof. rewrite negb_true_iff, bool_decide_eq_false. destruct l; simpl; split; try done; lia. Qed.

(** C2, as stated, fails: alice has a confirmed, accepted booking from 09:30
    to 10:15; it runs into the window 10:00-10:30, and the answer is
    [available: true]. *)
Lemma overlapping_booking_counterexample :
  ¬ available_iff touches Sample.e_early (Sample.ask "alice" Sample.t1000 Sample.t1030).
Proof.
  intros Hiff.
  destruct (Hiff (SlotApi.mk "UTC" []
                    [Slot.mk [0; 1; 2; 3; 4; 5; 6] (JS.Num 540) (JS.Num 1020)] true))
    as (rawUser & from & to & wh & [Hu Hf Ht _ _] & Hav).
  - vm_compute. reflexivity.
  - injection Hu as <-. injection Hf as <-. injection Ht as <-.
    destruct Hav as [Hav _]. destruct (Hav eq_refl) as [_ Hnone].
    apply (Hnone Sample.early).
    + apply list_elem_of_here.
    + done.
    + vm_compute. split; discriminate.
Qed.

(** C2, amended. For every request that passes the guards of the slot-fetch
    variant, [available] is true exactly when a slot was selected and no
    confirmed, accepted booking of the user begins inside the window
    [[dateFrom, dateTo]], ends included; the minute of the day of such a
    booking plays no part. *)
Theorem available_without_booking_start (e : env) (req : request) :
  available_iff starts_within e req.
Proof.
  intros b Hb.
  apply slot_body_inv in Hb as (rawUser & from & to & wh & Hres & _ & _ & _ & _ & ->).
  exists rawUser, from, to, wh. split; [done|]. simpl.
  by rewrite andb_true_iff, length_ne_0, length_eq_0, findMany_nil.
Qed.

Lemma available_without_booking_start_witness :
  ∃ rawUser from to wh,
    resolved Sample.e_inside (Sample.ask "alice" Sample.t1000 Sample.t1030) rawUser from to wh
    ∧ (false = true ↔
         [Slot.mk [0; 1; 2; 3; 4; 5; 6] (JS.Num 540) (JS.Num 1020)] ≠ []
         ∧ ∀ bk, bk ∈ bookings Sample.e_inside → counted rawUser bk →
                 ¬ starts_within bk from to).
Proof.
  apply (available_without_booking_start Sample.e_inside
           (Sample.ask "alice" Sample.t1000 Sample.t1030)
           (SlotApi.mk "UTC" [Busy.mk 615 645]
              [Slot.mk [0; 1; 2; 3; 4; 5; 6] (JS.Num 540) (JS.Num 1020)] false)).
  vm_compute. reflexivity.
Defined.

(** * Further properties of the handlers *)

(** ** Local coordinates *)

Lemma hour_minute_closed_form (wall : Z) :
  Dayjs.hour wall * 60 + Dayjs.minute wall = (wall `div` 60000) `mod` 1440.
Proof.
  unfold Dayjs.hour, Dayjs.minute.
  pose proof (Z.div_mod wall 60000 ltac:(lia)) as Hw.
  pose proof (Z.mod_pos_bound wall 60000 ltac:(lia)) as Hr.
  set (q := wall `div` 60000) in *. set (r := wall `mod` 60000) in *.
  pose proof (Z.div_mod q 1440 ltac:(lia)) as Hq.
  pose proof (Z.mod_pos_bound q 1440 ltac:(lia)) as Hm.
  set (d := q `div` 1440) in *. set (m := q `mod` 1440) in *.
  pose proof (Z.div_mod m 60 ltac:(lia)) as Hh.
  pose proof (Z.mod_pos_bound m 60 ltac:(lia)) as Hmm.
  set (h := m `div` 60) in *. set (mi := m `mod` 60) in *.
  assert (Hday : wall `mod` 86400000 = m * 60000 + r).
  { symmetry. apply (Z.mod_unique_pos _ _ d); lia. }
  assert (Hhour : wall `mod` 3600000 = mi * 60000 + r).
  { symmetry. apply (Z.mod_unique_pos _ _ (d * 24 + h)); lia. }
  rewrite Hday, Hhour.
  assert (H1 : (m * 60000 + r) `div` 3600000 = h).
  { symmetry. apply (Z.div_unique_pos _ _ _ (mi * 60000 + r)); lia. }
  assert (H2 : (mi * 60000 + r) `div` 60000 = mi).
  { symmetry. apply (Z.div_unique_pos _ _ _ r); lia. }
  rewrite H1, H2. lia.
Qed.

Lemma local_minutes_of_day (e : env) (timeZone : string) (ms : Z) :
  minute_of_day (Hours.local_minutes e timeZone ms).
Proof.
  unfold Hours.local_minutes. rewrite hour_minute_closed_form.
  apply Z.mod_pos_bound. lia.
Qed.

(** X2. The availability variant reads [dateTo], once the range check is
    passed, through its local minute of the day only: two windows from the
    same [dateFrom] whose ends have the same local minute in the user's zone,
    days apart for instance, get the same answer or the same exception. *)
Theorem availability_reads_end_minute_only (e : env) (req : request) (from to to' : Z) :
  dateFrom req = Dayjs.At from → dateTo req = Dayjs.At to → from ≤ to → from ≤ to' →
  (∀ rawUser, findUnique e (user req) = Some rawUser →
     Hours.local_minutes e (User.timeZone rawUser) to'
     = Hours.local_minutes e (User.timeZone rawUser) to) →
  AvailabilityApi.handler e (with_dateTo req (Dayjs.At to')) = AvailabilityApi.handler e req.
Proof.
  intros Hf Ht Hle Hle' Hsame.
  destruct (handler_not_before e req from to Hf Ht Hle) as [_ ->].
  destruct (handler_not_before e (with_dateTo req (Dayjs.At to')) from to' Hf eq_refl Hle')
    as [_ ->].
  unfold AvailabilityApi.resolve. simpl.
  destruct (findUnique e (user req)) as [rawUser|] eqn:Hu; [|done].
  by rewrite (Hsame rawUser eq_refl).
Qed.

Lemma availability_reads_end_minute_only_witness :
  AvailabilityApi.handler Sample.e0
    (with_dateTo (Sample.ask "alice" Sample.t1000 Sample.t1030)
       (Dayjs.At (Sample.t1030 + 3 * day_ms)))
  = AvailabilityApi.handler Sample.e0 (Sample.ask "alice" Sample.t1000 Sample.t1030).
Proof.
  apply (availability_reads_end_minute_only Sample.e0
           (Sample.ask "alice" Sample.t1000 Sample.t1030)
           Sample.t1000 Sample.t1030 (Sample.t1030 + 3 * day_ms)).
  - reflexivity.
  - reflexivity.
  - vm_compute. discriminate.
  - vm_compute. discriminate.
  - intros rawUser [= <-]. reflexivity.
Defined.

(** ** The guards of the slot-fetch variant, one by one *)

Lemma slot_handler_invalid (e : env) (req : request) :
  dateFrom req = Dayjs.Invalid ∨ dateTo req = Dayjs.Invalid →
  SlotApi.handler e req = Normal InvalidRange.
Proof.
  intros Hinv. apply handler_before. intros (from & to & Hf & Ht & _).
  destruct Hinv as [Hinv|Hinv]; congruence.
Qed.

(** Case analysis on a request with two valid instants, in the order of the
    checks. *)
Ltac slot_guards e req :=
  let from := fresh "from" in
  let to := fresh "to" in
  let Hf := fresh "Hfrom" in
  let Ht := fresh "Hto" in
  destruct (dateFrom req) as [|from] eqn:Hf;
    [rewrite (slot_handler_invalid e req) by (by left)|];
  [|destruct (dateTo req) as [|to] eqn:Ht;
    [rewrite (slot_handler_invalid e req) by (by right)|]];
  [..|rewrite (slot_handler_valid e req from to Hf Ht);
      case_bool_decide; [|case_bool_decide]].

(** X3. The slot-fetch variant answers [SlotTooLong] exactly when both dates
    are valid, [dateTo] is not before [dateFrom] and they are 86400000
    milliseconds or more apart; a window one millisecond short of 24 hours
    passes this check. *)
Theorem too_long_exactly (e : env) (req : request) :
  SlotApi.handler e req = Normal SlotTooLong ↔
  ∃ from to,
    dateFrom req = Dayjs.At from ∧ dateTo req = Dayjs.At to ∧ from ≤ to ∧ day_ms ≤ to - from.
Proof.
  split.
  - slot_guards e req; try discriminate.
    + intros _. exists from, to. split_and!; [done..|lia|done].
    + unfold SlotApi.resolve. destruct (findUnique e (user req)); [|discriminate].
      case_bool_decide; [discriminate|]. destruct (_ && _); [discriminate|].
      intros Hr. exfalso. revert Hr.
      apply bind_never. intros wh. cbv beta zeta. apply bind_never. discriminate.
  - intros (from & to & Hf & Ht & Hle & Hspan).
    rewrite (slot_handler_valid e req from to Hf Ht).
    by rewrite bool_decide_false, bool_decide_true by lia.
Qed.

(** A request that reaches the user lookup and finds a user. *)
Lemma reach_known (e : env) (req : request) (P : Prop) :
  (∀ rawUser from to, known_user e req rawUser from to → P) →
  ∀ r, SlotApi.handler e req = r →
    r ≠ Normal InvalidRange → r ≠ Normal SlotTooLong → r ≠ Normal UserNotFound → P.
Proof.
  intros HP r <-. slot_guards e req; try done.
  unfold SlotApi.resolve.
  destruct (findUnique e (user req)) as [rawUser|] eqn:Hu; [|done].
  intros _ _ _. apply (HP rawUser from to). split; [done..|lia|lia|done].
Qed.

Lemma known_user_unique (e : env) (req : request) (u u' : User.t) (from to from' to' : Z) :
  known_user e req u from to → known_user e req u' from' to' →
  u' = u ∧ from' = from ∧ to' = to.
Proof. intros [] []. split_and!; congruence. Qed.

(** X4. The slot-fetch variant answers [PastBooking] exactly when the range
    checks pass, the user is stored and [dateFrom] is before the clock; a
    window that starts at the very instant of the clock is not in the past. *)
Theorem past_booking_exactly (e : env) (req : request) :
  SlotApi.handler e req = Normal PastBooking ↔
  ∃ rawUser from to, known_user e req rawUser from to ∧ from < now e.
Proof.
  split.
  - intros Hr. apply (reach_known e req) with (r := Normal PastBooking); try done.
    intros rawUser from to Hk. rewrite (resolve_known e req rawUser from to Hk) in Hr.
    exists rawUser, from, to. split; [done|].
    case_bool_decide; [done|]. destruct (_ && _); [discriminate|].
    exfalso. revert Hr. apply bind_never. intros wh. apply bind_never. discriminate.
  - intros (rawUser & from & to & Hk & Hpast).
    rewrite (resolve_known e req rawUser from to Hk). by rewrite bool_decide_true.
Qed.

(** X5. The slot-fetch variant answers [InsufficientNotice] exactly when the
    earlier checks pass, the user's minimum notice is not zero and
    [dateFrom] is before the clock plus that many minutes; a window that
    starts exactly at the end of the notice passes, and a notice of zero or
    less never rejects. *)
Theorem insufficient_notice_exactly (e : env) (req : request) :
  (SlotApi.handler e req = Normal InsufficientNotice ↔
   ∃ rawUser from to,
     known_user e req rawUser from to
     ∧ now e ≤ from
     ∧ User.minimumBookingNotice rawUser ≠ 0
     ∧ from < now e + User.minimumBookingNotice rawUser * 60000)
  ∧ (∀ rawUser, findUnique e (user req) = Some rawUser →
       User.minimumBookingNotice rawUser ≤ 0 →
       SlotApi.handler e req ≠ Normal InsufficientNotice).
Proof.
  assert (Hiff : SlotApi.handler e req = Normal InsufficientNotice ↔
    ∃ rawUser from to, known_user e req rawUser from to ∧ now e ≤ from
      ∧ User.minimumBookingNotice rawUser ≠ 0
      ∧ from < now e + User.minimumBookingNotice rawUser * 60000).
  { split.
    - intros Hr. apply (reach_known e req) with (r := Normal InsufficientNotice); try done.
      intros rawUser from to Hk. rewrite (resolve_known e req rawUser from to Hk) in Hr.
      exists rawUser, from, to. split; [done|].
      case_bool_decide; [discriminate|].
      destruct (bool_decide (User.minimumBookingNotice rawUser ≠ 0)) eqn:Hn; simpl in Hr.
      + apply bool_decide_eq_true in Hn. unfold Dayjs.add_minutes in Hr.
        case_bool_decide; [split_and!; [lia|done|done]|].
        exfalso. revert Hr. apply bind_never. intros wh. apply bind_never. discriminate.
      + exfalso. revert Hr. apply bind_never. intros wh. apply bind_never. discriminate.
    - intros (rawUser & from & to & Hk & Hpast & Hn & Hlt).
      rewrite (resolve_known e req rawUser from to Hk). unfold Dayjs.add_minutes.
      by rewrite bool_decide_false, !bool_decide_true by lia. }
  split; [exact Hiff|].
  intros rawUser Hu Hn Hr. apply Hiff in Hr as (u & from & to & [_ _ _ _ Hu'] & ? & ? & ?).
  assert (u = rawUser) as -> by congruence. lia.
Qed.

Lemma insufficient_notice_exactly_witness :
  SlotApi.handler Sample.e0 (Sample.ask "bob" (1704700000000 + 119 * 60000)
                                              (1704700000000 + 149 * 60000))
  = Normal InsufficientNotice
  ∧ SlotApi.handler Sample.e0 (Sample.ask "alice" 1704700000000 1704700000001)
    ≠ Normal InsufficientNotice.
Proof.
  split.
  - apply (proj1 (insufficient_notice_exactly Sample.e0 _)).
    exists Sample.bob, (1704700000000 + 119 * 60000), (1704700000000 + 149 * 60000).
    split_and!; [split; [reflexivity..| | |reflexivity]| | |]; vm_compute; congruence.
  - apply (proj2 (insufficient_notice_exactly Sample.e0 _) Sample.alice).
    + reflexivity.
    + vm_compute. discriminate.
Defined.

Lemma too_long_exactly_witness :
  SlotApi.handler Sample.e0 (Sample.ask "alice" Sample.t1000 (Sample.t1000 + day_ms))
  = Normal SlotTooLong
  ∧ SlotApi.handler Sample.e0 (Sample.ask "alice" Sample.t1000 (Sample.t1000 + day_ms - 1))
    ≠ Normal SlotTooLong.
Proof.
  split.
  - apply (proj2 (too_long_exactly Sample.e0 _)).
    exists Sample.t1000, (Sample.t1000 + day_ms).
    split_and!; [reflexivity..| |]; vm_compute; discriminate.
  - intros (from & to & [= <-] & [= <-] & _ & Hspan)%(proj1 (too_long_exactly Sample.e0 _)).
    vm_compute in Hspan. by destruct Hspan.
Defined.

Lemma past_booking_exactly_witness :
  SlotApi.handler Sample.e0 (Sample.ask "alice" (now Sample.e0 - 1) (now Sample.e0 + 1800000))
  = Normal PastBooking
  ∧ SlotApi.handler Sample.e0 (Sample.ask "alice" (now Sample.e0) (now Sample.e0 + 1800000))
    ≠ Normal PastBooking.
Proof.
  split.
  - apply (proj2 (past_booking_exactly Sample.e0 _)).
    exists Sample.alice, (now Sample.e0 - 1), (now Sample.e0 + 1800000).
    split; [split; [reflexivity..| | |reflexivity]|]; vm_compute; congruence.
  - intros (u & from & to & [[= <-] _ _ _ _] & Hpast)%(proj1 (past_booking_exactly Sample.e0 _)).
    vm_compute in Hpast. discriminate.
Defined.

(** ** Exceptions *)

Lemma forallb_false {A} (f : A → bool) (l : list A) :
  forallb f l = false ↔ ∃ x, x ∈ l ∧ f x = false.
Proof.
  induction l as [|x l IH]; simpl.
  - split; [discriminate | by intros (x & ?%elem_of_nil & _)].
  - rewrite andb_false_iff, IH. split.
    + intros [Hx|(y & Hy & Hfy)]; [exists x | exists y]; split; try done;
        [apply list_elem_of_here | by apply list_elem_of_further].
    + intros (y & [->|Hy]%elem_of_cons & Hfy); [by left | right; by exists y].
Qed.

Lemma day_ok_false (freeBusyTimes : json) (day : string) :
  day_ok freeBusyTimes day = false ↔
  ∃ v, member_opt (Some freeBusyTimes) day = Some v ∧ bad_day_value v.
Proof.
  unfold day_ok. destruct (member_opt _ day) as [v|]; [|split; [done|by intros (? & [=] & _)]].
  split.
  - intros Hv. exists v. split; [done|].
    destruct v as [| | | |items|]; simpl; try done.
    apply forallb_false in Hv as (time & Hin & Hbad). exists time. split; [done|].
    apply bool_decide_eq_false in Hbad. destruct (entry_strings time); [|done].
    destruct Hbad. by eexists.
  - intros (v' & [= <-] & Hbad). destruct v as [| | | |items|]; simpl in *; try done.
    apply forallb_false. destruct Hbad as (time & Hin & Hnone). exists time.
    split; [done|]. rewrite Hnone. by apply bool_decide_eq_false; intros [? [=]].
Qed.

(** The builder raises exactly on a schedule with a weekday value that is
    neither [null] nor an array of string entries. *)
Lemma well_shaped_false (rawUser : User.t) : well_shaped rawUser = false ↔ ill_shaped rawUser.
Proof.
  unfold well_shaped, ill_shaped, schedule_ok. rewrite forallb_false. split.
  - intros (schedule & Hin & (entry & Hentry & Hbad)%forallb_false).
    apply elem_of_lookup_imap in Hentry as (index & day & -> & Hday).
    apply day_ok_false in Hbad as (v & Hv & Hbad).
    exists schedule, day, v. split_and!; try done. apply list_elem_of_lookup. by exists index.
  - intros (schedule & day & v & Hin & [index Hday]%list_elem_of_lookup & Hv & Hbad).
    exists schedule. split; [done|]. apply forallb_false. exists (index, day). split.
    + apply elem_of_lookup_imap. by exists index, day.
    + apply day_ok_false. by exists v.
Qed.

Lemma workingHours_Throw (engine : list Slot.t → list Slot.t) (rawUser : User.t) (err : exn) :
  Hours.workingHours engine rawUser = Throw err ↔ err = TypeError ∧ ill_shaped rawUser.
Proof.
  rewrite workingHours_spec, <- well_shaped_false.
  destruct (well_shaped rawUser); split; try done.
  - by intros [_ ?].
  - by intros [= <-].
  - by intros [-> _].
Qed.

(** An exception of the slot-fetch variant comes from a request that passed
    the five checks, and is raised by the builder or by the first
    [dateFrom.tz]. *)
Lemma cleared_of_Throw (e : env) (req : request) (err : exn) :
  SlotApi.handler e req = Throw err →
  ∃ rawUser from to,
    cleared e req rawUser from to
    ∧ Hours.workingHours (engine e) rawUser ≫= (λ _, tz_returns e (User.timeZone rawUser))
      = Throw err.
Proof.
  intros Hr. apply (reach_known e req) with (r := Throw err); try done.
  intros rawUser from to Hk. rewrite (resolve_known e req rawUser from to Hk) in Hr.
  case_bool_decide as Hpast; [discriminate|].
  destruct (bool_decide (User.minimumBookingNotice rawUser ≠ 0) && _) eqn:Hn;
    [discriminate|].
  exists rawUser, from, to. split.
  - split; [done|lia|].
    apply andb_false_iff in Hn as [Hn|Hn]; apply bool_decide_eq_false in Hn.
    + left. by destruct (decide (User.minimumBookingNotice rawUser = 0)).
    + right. unfold Dayjs.add_minutes in Hn. lia.
  - revert Hr. generalize (tz_returns e (User.timeZone rawUser)). intros c.
    destruct (Hours.workingHours (engine e) rawUser) as [wh|]; simpl; [|by intros [= ->]].
    destruct c as [[]|]; simpl; [discriminate|by intros [= ->]].
Qed.

(** X6. The slot-fetch variant throws exactly when the request passes all
    five checks and either the user's stored schedule has, on any weekday, a
    value that is neither [null] nor an array of entries with string start
    and end, and the exception is a [TypeError]; or the schedule is one the
    builder accepts and the user's stored zone is a name the runtime does not
    know, and the exception is a [RangeError].  A malformed value under one
    weekday thus fails requests for every weekday, and no exception escapes
    before the checks are passed. *)
Theorem slot_throws_exactly (e : env) (req : request) (err : exn) :
  SlotApi.handler e req = Throw err ↔
  ∃ rawUser from to,
    cleared e req rawUser from to
    ∧ ((ill_shaped rawUser ∧ err = TypeError)
       ∨ (well_shaped rawUser = true
          ∧ known_zone e (User.timeZone rawUser) = false ∧ err = RangeError)).
Proof.
  split.
  - intros (rawUser & from & to & Hc & Hthrow)%cleared_of_Throw.
    exists rawUser, from, to. split; [done|].
    rewrite workingHours_spec in Hthrow.
    destruct (well_shaped rawUser) eqn:Hok; simpl in Hthrow.
    + right. unfold tz_returns in Hthrow.
      destruct (known_zone e (User.timeZone rawUser)); [discriminate|].
      by injection Hthrow as <-.
    + left. injection Hthrow as <-. by apply well_shaped_false in Hok.
  - intros (rawUser & from & to & Hc & [[Hill ->]|(Hok & Hknown & ->)]);
      rewrite (resolve_cleared e req rawUser from to Hc), workingHours_spec.
    + apply well_shaped_false in Hill. by rewrite Hill.
    + by rewrite Hok, (tz_returns_unknown _ _ Hknown).
Qed.

(** X7. The availability variant throws exactly when the range check passes
    and: no user is stored under the name, with [Error("No user found")]; or
    the stored schedule is ill-shaped, with a [TypeError]; or the schedule is
    accepted and dayjs has not been extended with the time-zone plugin, with
    the [TypeError] of calling [dateFrom.tz]; or the plugin is there and the
    user's stored zone is a name the runtime does not know, with a
    [RangeError]. *)
Theorem availability_throws_exactly (e : env) (req : request) (err : exn) :
  AvailabilityApi.handler e req = Throw err ↔
  not_before req
  ∧ ((findUnique e (user req) = None ∧ err = Error "No user found")
     ∨ (∃ rawUser,
          findUnique e (user req) = Some rawUser
          ∧ ((ill_shaped rawUser ∧ err = TypeError)
             ∨ (well_shaped rawUser = true
                ∧ timezone_extended e = false ∧ err = TypeError)
             ∨ (well_shaped rawUser = true ∧ timezone_extended e = true
                ∧ known_zone e (User.timeZone rawUser) = false ∧ err = RangeError)))).
Proof.
  destruct (not_before_dec req) as [Hnb|Hno].
  - destruct Hnb as (from & to & Hf & Ht & Hle).
    destruct (handler_not_before e req from to Hf Ht Hle) as [_ ->].
    destruct (findUnique e (user req)) as [rawUser|] eqn:Hu.
    + rewrite (availability_resolve_stored e req from to rawUser Hu), workingHours_spec.
      unfold AvailabilityApi.call_tz, tz_returns.
      destruct (well_shaped rawUser) eqn:Hok; simpl;
        [destruct (timezone_extended e) eqn:Hext; simpl;
           [destruct (known_zone e (User.timeZone rawUser)) eqn:Hknown; simpl|]|];
        (split;
          [try discriminate; intros [= <-]; (split; [by exists from, to|]); right;
           exists rawUser; (split; [done|])
          |intros (_ & [[? _]|(u & Hu' & Hcases)]); [congruence|];
           destruct Hcases as [[Hill ?]|[(? & ? & ?)|(? & ? & ? & ?)]];
           try congruence; apply well_shaped_false in Hill; congruence]).
      * right. right. done.
      * right. left. done.
      * left. split; [by apply well_shaped_false|done].
    + unfold AvailabilityApi.resolve. rewrite Hu. split.
      * intros [= <-]. split; [by exists from, to|]. by left.
      * by intros (_ & [[_ ->]|(u & [=] & _)]).
  - destruct (handler_before e req Hno) as [_ ->]. split; [discriminate|by intros [? _]].
Qed.

Lemma dave_ill_shaped : ill_shaped More.dave.
Proof.
  eexists _, "tuesday"%string, _. split_and!.
  - apply list_elem_of_here.
  - apply list_elem_of_further, list_elem_of_further, list_elem_of_here.
  - reflexivity.
  - eexists. split; [apply list_elem_of_here|reflexivity].
Qed.

Lemma slot_throws_exactly_witness :
  SlotApi.handler More.e1 (Sample.ask "dave" Sample.t1000 Sample.t1030) = Throw TypeError
  ∧ SlotApi.handler More.e1 (Sample.ask "frank" Sample.t1000 Sample.t1030)
    = Throw RangeError.
Proof.
  split.
  - apply (proj2 (slot_throws_exactly More.e1 _ TypeError)).
    exists More.dave, Sample.t1000, Sample.t1030. split; [|left; split; [|done]].
    + split; [split; [reflexivity..| | |reflexivity]| |left; reflexivity];
        vm_compute; congruence.
    + exact dave_ill_shaped.
  - apply (proj2 (slot_throws_exactly More.e1 _ RangeError)).
    exists More.frank, Sample.t1000, Sample.t1030. split; [|right; by split_and!].
    split; [split; [reflexivity..| | |reflexivity]| |left; reflexivity];
      vm_compute; congruence.
Defined.

Lemma availability_throws_exactly_witness :
  AvailabilityApi.handler More.e1 (Sample.ask "dave" Sample.t1000 Sample.t1030)
  = Throw TypeError
  ∧ AvailabilityApi.handler More.e1 (Sample.ask "nobody" Sample.t1000 Sample.t1030)
    = Throw (Error "No user found")
  ∧ AvailabilityApi.handler More.e1_alone (Sample.ask "alice" Sample.t1000 Sample.t1030)
    = Throw TypeError
  ∧ AvailabilityApi.handler More.e1 (Sample.ask "frank" Sample.t1000 Sample.t1030)
    = Throw RangeError.
Proof.
  split_and!; apply (proj2 (availability_throws_exactly _ _ _)); (split;
    [exists Sample.t1000, Sample.t1030; split_and!; [reflexivity..|vm_compute; congruence]|]).
  - right. exists More.dave. split; [reflexivity|]. left. split; [exact dave_ill_shaped|done].
  - left. split; reflexivity.
  - right. exists Sample.alice. split; [reflexivity|]. right. left. by split_and!.
  - right. exists More.frank. split; [reflexivity|]. right. right. by split_and!.
Defined.

(** X24. The slot-fetch variant answers [UserNotFound] exactly when the two
    range checks pass and no user is stored under the name, whatever the
    clock says. *)
Theorem user_not_found_exactly (e : env) (req : request) :
  SlotApi.handler e req = Normal UserNotFound ↔
  ∃ from to,
    dateFrom req = Dayjs.At from ∧ dateTo req = Dayjs.At to ∧ from ≤ to
    ∧ to - from < day_ms ∧ findUnique e (user req) = None.
Proof.
  split.
  - slot_guards e req; try discriminate. unfold SlotApi.resolve.
    destruct (findUnique e (user req)) as [rawUser|] eqn:Hu.
    + case_bool_decide; [discriminate|]. destruct (_ && _); [discriminate|].
      intros Hr. exfalso. revert Hr.
      apply bind_never. intros wh. cbv beta zeta. apply bind_never. discriminate.
    + intros _. exists from, to. split_and!; [done..|lia|lia|done].
  - intros (from & to & Hf & Ht & Hle & Hspan & Hu).
    rewrite (slot_handler_valid e req from to Hf Ht), !bool_decide_false by lia.
    unfold SlotApi.resolve. by rewrite Hu.
Qed.

Lemma user_not_found_exactly_witness :
  SlotApi.handler Sample.e0 (Sample.ask "nobody" 0 1800000) = Normal UserNotFound.
Proof.
  apply (proj2 (user_not_found_exactly Sample.e0 (Sample.ask "nobody" 0 1800000))).
  exists 0, 1800000. split_and!; [reflexivity..| | |reflexivity]; vm_compute; congruence.
Defined.

(** X25. The slot-fetch variant answers with a 200 body exactly when the
    request passes the five checks, the stored schedule is well shaped and
    the user's stored zone is a name the runtime knows: together with the
    other answers and the two exceptions this leaves no request without an
    answer or an exception. *)
Theorem slot_body_exactly (e : env) (req : request) :
  (∃ b, SlotApi.handler e req = Normal (Body b)) ↔
  ∃ rawUser from to,
    cleared e req rawUser from to ∧ well_shaped rawUser = true
    ∧ known_zone e (User.timeZone rawUser) = true.
Proof.
  split.
  - intros (b & (rawUser & from & to & wh & Hc & Hwh & Hknown)%slot_body_cleared).
    exists rawUser, from, to. split_and!; [done| |done].
    rewrite workingHours_spec in Hwh. by destruct (well_shaped rawUser).
  - intros (rawUser & from & to & Hc & Hok & Hknown).
    rewrite (resolve_cleared e req rawUser from to Hc), workingHours_spec, Hok.
    rewrite (tz_returns_known _ _ Hknown). by eexists.
Qed.

Lemma slot_body_exactly_witness :
  ∃ b, SlotApi.handler Sample.e0 (Sample.ask "carol" Sample.t1000 Sample.t1030)
       = Normal (Body b).
Proof.
  apply (proj2 (slot_body_exactly Sample.e0 (Sample.ask "carol" Sample.t1000 Sample.t1030))).
  exists Sample.carol, Sample.t1000, Sample.t1030. split_and!; [|reflexivity..].
  split; [split; [reflexivity..| | |reflexivity]| |left; reflexivity];
    vm_compute; congruence.
Defined.

(** ** The body of the slot-fetch variant *)

(** X8. In a body of the slot-fetch variant, [busy] holds exactly the local
    start and end minute of the confirmed, accepted bookings of the user that
    begin inside the window, every such minute lies in [[0, 1440)], and
    [available] is true only when [busy] is empty. *)
Theorem busy_reports_bookings (e : env) (req : request) (b : SlotApi.body) :
  SlotApi.handler e req = Normal (Body b) →
  ∃ rawUser from to,
    cleared e req rawUser from to
    ∧ SlotApi.timeZone b = User.timeZone rawUser
    ∧ (∀ x, x ∈ SlotApi.busy b ↔
         ∃ bk, bk ∈ bookings e ∧ counted rawUser bk ∧ starts_within bk from to
               ∧ x = busy_of e (User.timeZone rawUser) bk)
    ∧ Forall (λ x, minute_of_day (Busy.startTime x) ∧ minute_of_day (Busy.endTime x))
             (SlotApi.busy b)
    ∧ (SlotApi.available b = true → SlotApi.busy b = [] ∧ SlotApi.selectedSlots b ≠ []).
Proof.
  intros Hb.
  apply slot_body_inv in Hb as (rawUser & from & to & wh & [Hu Hf Ht Hle Hwh] & _ & Hspan
                                 & Hpast & Hnotice & ->).
  exists rawUser, from, to. simpl. split_and!.
  - split; [split; try done|done|].
    + apply Z.nle_gt. intros Hlong. apply (span_day from to Hle) in Hlong. lia.
    + destruct Hnotice as [?|Hn]; [by left|right]. unfold Dayjs.add_minutes in Hn. lia.
  - done.
  - intros x. rewrite list_elem_of_fmap. unfold findMany. split.
    + intros (bk & -> & [(Hid & Hst & Hc & Hw) Hin]%list_elem_of_filter).
      exists bk. by split_and!.
    + intros (bk & Hin & (Hid & Hst & Hc) & Hw & ->). exists bk. split; [done|].
      apply list_elem_of_filter. split; [|done]. split_and!; try done; apply Hw.
  - apply Forall_fmap, Forall_forall. intros bk _. simpl.
    split; apply local_minutes_of_day.
  - rewrite andb_true_iff, length_ne_0, length_eq_0. intros [Hsel ->]. done.
Qed.

Lemma busy_reports_bookings_witness :
  ∃ rawUser from to,
    cleared More.e1 (Sample.ask "alice" Sample.t1000 Sample.t1030) rawUser from to
    ∧ "UTC"%string = User.timeZone rawUser
    ∧ (∀ x, x ∈ [Busy.mk 615 645] ↔
         ∃ bk, bk ∈ bookings More.e1 ∧ counted rawUser bk ∧ starts_within bk from to
               ∧ x = busy_of More.e1 (User.timeZone rawUser) bk)
    ∧ Forall (λ x, minute_of_day (Busy.startTime x) ∧ minute_of_day (Busy.endTime x))
             [Busy.mk 615 645]
    ∧ (false = true →
       [Busy.mk 615 645] = []
       ∧ [Slot.mk [0; 1; 2; 3; 4; 5; 6] (JS.Num 540) (JS.Num 1020)] ≠ []).
Proof.
  apply (busy_reports_bookings More.e1 (Sample.ask "alice" Sample.t1000 Sample.t1030)
           (SlotApi.mk "UTC" [Busy.mk 615 645]
              [Slot.mk [0; 1; 2; 3; 4; 5; 6] (JS.Num 540) (JS.Num 1020)] false)).
  vm_compute. reflexivity.
Defined.

(** X9. Whenever the slot-fetch variant answers with a body, the
    availability variant, run where dayjs has been extended with the
    time-zone plugin, answers the same request with a body that reports the
    same time zone and the same intervals, and is available whenever the
    slot-fetch answer is; run where dayjs has not been extended, it raises a
    [TypeError] on that request. *)
Theorem variants_agree (e : env) (req : request) (b : SlotApi.body) :
  SlotApi.handler e req = Normal (Body b) →
  (timezone_extended e = true →
   ∃ b',
     AvailabilityApi.handler e req = Normal (Body b')
     ∧ AvailabilityApi.timeZone b' = SlotApi.timeZone b
     ∧ AvailabilityApi.workingHours b' = SlotApi.selectedSlots b
     ∧ (SlotApi.available b = true → AvailabilityApi.available b' = true))
  ∧ (timezone_extended e = false → AvailabilityApi.handler e req = Throw TypeError).
Proof.
  intros Hb.
  apply slot_body_inv in Hb as (rawUser & from & to & wh & [Hu Hf Ht Hle Hwh] & Hknown
                                 & _ & _ & _ & ->).
  destruct (handler_not_before e req from to Hf Ht Hle) as [_ ->].
  rewrite (availability_resolve_stored e req from to rawUser Hu), Hwh.
  unfold AvailabilityApi.call_tz. split; intros ->; [|done].
  rewrite (tz_returns_known _ _ Hknown). simpl.
  eexists. split; [reflexivity|]. simpl. split_and!; [done..|].
  by intros [? _]%andb_true_iff.
Qed.

Lemma variants_agree_witness :
  (∃ b',
     AvailabilityApi.handler More.e1 (Sample.ask "alice" Sample.t1000 Sample.t1030)
     = Normal (Body b')
     ∧ AvailabilityApi.timeZone b' = "UTC"%string
     ∧ AvailabilityApi.workingHours b'
       = [Slot.mk [0; 1; 2; 3; 4; 5; 6] (JS.Num 540) (JS.Num 1020)]
     ∧ (false = true → AvailabilityApi.available b' = true))
  ∧ AvailabilityApi.handler More.e1_alone (Sample.ask "alice" Sample.t1000 Sample.t1030)
    = Throw TypeError.
Proof.
  split.
  - apply (proj1 (variants_agree More.e1 (Sample.ask "alice" Sample.t1000 Sample.t1030)
                    (SlotApi.mk "UTC" [Busy.mk 615 645]
                       [Slot.mk [0; 1; 2; 3; 4; 5; 6] (JS.Num 540) (JS.Num 1020)] false)
                    ltac:(vm_compute; reflexivity))).
    reflexivity.
  - apply (proj2 (variants_agree More.e1_alone
                    (Sample.ask "alice" Sample.t1000 Sample.t1030)
                    (SlotApi.mk "UTC" [Busy.mk 615 645]
                       [Slot.mk [0; 1; 2; 3; 4; 5; 6] (JS.Num 540) (JS.Num 1020)] false)
                    ltac:(vm_compute; reflexivity))).
    reflexivity.
Defined.

(** ** The resolver *)

Lemma inverted_not_covering (slot : Slot.t) (day fromMinute toMinute : Z) :
  inverted slot → ¬ covers day fromMinute toMinute slot.
Proof.
  intros (lo & hi & Hlo & Hhi & Hlt) (_ & (lo' & hi' & Hlo' & Hhi' & Hin) & _).
  rewrite Hlo in Hlo'. rewrite Hhi in Hhi'. injection Hlo' as <-. injection Hhi' as <-. lia.
Qed.

(** X10. An interval whose end minute is before its start minute is selected
    for no window; a stored user all of whose working hours are such
    intervals, for instance one without schedule whose default end is before
    the default start, is answered with no interval and [available: false]
    by both variants, whatever the window that passes their checks (for the
    availability variant, where dayjs has been extended with the time-zone
    plugin). *)
Theorem inverted_interval_never_selected (e : env) (req : request) (rawUser : User.t)
    (from to : Z) (wh : list Slot.t) :
  Forall inverted wh →
  (∀ slot day fromMinute toMinute,
     slot ∈ wh → slot ∉ Hours.selectedSlots wh day fromMinute toMinute)
  ∧ (dateFrom req = Dayjs.At from → dateTo req = Dayjs.At to → from ≤ to →
     findUnique e (user req) = Some rawUser →
     Hours.workingHours (engine e) rawUser = Normal wh →
     timezone_extended e = true → known_zone e (User.timeZone rawUser) = true →
     AvailabilityApi.handler e req
     = Normal (Body (AvailabilityApi.mk (User.timeZone rawUser) [] false)))
  ∧ (cleared e req rawUser from to →
     Hours.workingHours (engine e) rawUser = Normal wh →
     known_zone e (User.timeZone rawUser) = true →
     ∃ b, SlotApi.handler e req = Normal (Body b)
          ∧ SlotApi.selectedSlots b = [] ∧ SlotApi.available b = false).
Proof.
  intros Hinv.
  assert (Hnone : ∀ day a b, Hours.selectedSlots wh day a b = []).
  { intros day a b. apply elem_of_nil_inv. intros slot [Hin Hc]%elem_of_selectedSlots.
    rewrite Forall_forall in Hinv. by apply (inverted_not_covering slot day a b (Hinv _ Hin)). }
  split_and!.
  - intros slot day a b _. rewrite Hnone. apply not_elem_of_nil.
  - intros Hf Ht Hle Hu Hwh Hext Hknown.
    destruct (handler_not_before e req from to Hf Ht Hle) as [_ ->].
    rewrite (availability_resolve_stored e req from to rawUser Hu), Hwh.
    unfold AvailabilityApi.call_tz. rewrite Hext, (tz_returns_known _ _ Hknown). simpl.
    by rewrite Hnone.
  - intros Hc Hwh Hknown.
    rewrite (resolve_cleared e req rawUser from to Hc), Hwh, (tz_returns_known _ _ Hknown).
    simpl. rewrite Hnone. by eexists.
Qed.

Lemma inverted_interval_never_selected_witness :
  AvailabilityApi.handler More.e1 (Sample.ask "erin" Sample.t1000 Sample.t1030)
  = Normal (Body (AvailabilityApi.mk "UTC" [] false))
  ∧ ∃ b, SlotApi.handler More.e1 (Sample.ask "erin" Sample.t1000 Sample.t1030)
         = Normal (Body b)
         ∧ SlotApi.selectedSlots b = [] ∧ SlotApi.available b = false.
Proof.
  destruct (inverted_interval_never_selected More.e1
              (Sample.ask "erin" Sample.t1000 Sample.t1030) More.erin
              Sample.t1000 Sample.t1030
              [Hours.defaultAvailability More.erin]
              ltac:(constructor; [exists 1020, 540; by split_and!|constructor]))
    as (_ & Hav & Hslot).
  split.
  - apply Hav; [reflexivity|reflexivity|vm_compute; congruence|reflexivity..].
  - apply Hslot; [|reflexivity..].
    split; [split; [reflexivity..| | |reflexivity]| |left; reflexivity];
      vm_compute; congruence.
Defined.

Lemma filter_sublist_mono {A} (P Q : A → Prop) `{!∀ x, Decision (P x)} `{!∀ x, Decision (Q x)}
    (l : list A) :
  (∀ x, P x → Q x) → filter P l `sublist_of` filter Q l.
Proof.
  intros HPQ. induction l as [|x l IH]; [done|]. rewrite !filter_cons.
  destruct (decide (P x)) as [HP|HP], (decide (Q x)) as [HQ|HQ].
  - by apply sublist_skip.
  - by destruct HQ; apply HPQ.
  - by apply sublist_cons.
  - done.
Qed.

(** X11. An interval that matches a window matches every window of the same
    weekday whose two local minutes lie between the two local minutes of the
    first: narrowing a window never loses a selected interval. *)
Theorem narrower_window_keeps_slots (wh : list Slot.t) (day a b a' b' : Z) :
  Z.min a b ≤ a' ≤ Z.max a b → Z.min a b ≤ b' ≤ Z.max a b →
  Hours.selectedSlots wh day a b `sublist_of` Hours.selectedSlots wh day a' b'.
Proof.
  intros Ha Hb. unfold Hours.selectedSlots. apply filter_sublist_mono. intros slot.
  rewrite !Is_true_true, !slot_matches_covers.
  intros (Hday & (lo & hi & Hlo & Hhi & Hin) & (lo' & hi' & Hlo' & Hhi' & Hin')).
  rewrite Hlo in Hlo'. rewrite Hhi in Hhi'. injection Hlo' as <-. injection Hhi' as <-.
  split_and!; [done|..]; exists lo, hi; split_and!; try done; lia.
Qed.

Lemma narrower_window_keeps_slots_witness :
  Hours.selectedSlots (Hours.stable_sort (parsed Sample.carol)) 1 600 660
  `sublist_of` Hours.selectedSlots (Hours.stable_sort (parsed Sample.carol)) 1 615 630.
Proof.
  apply (narrower_window_keeps_slots (Hours.stable_sort (parsed Sample.carol))
           1 600 660 615 630);
    lia.
Defined.

Lemma sublist_ascending (l l' : list Slot.t) : l `sublist_of` l' → ascending l' → ascending l.
Proof.
  unfold ascending. intros Hsub Hasc. revert l Hsub.
  induction Hasc as [|x l' Hasc IH Hx]; intros l Hsub.
  - apply sublist_nil_r in Hsub as ->. constructor.
  - apply sublist_cons_r in Hsub as [Hsub|(l0 & -> & Hsub)]; [by apply IH|].
    constructor; [by apply IH|].
    eapply Forall_forall. intros y Hy. eapply Forall_forall in Hx; [exact Hx|].
    by eapply elem_of_sublist.
Qed.

(** X12. The sort only orders the answer: the intervals selected from the
    sorted working hours are a rearrangement of those selected from the
    unsorted list, and when no start minute is NaN the reported selection is
    itself ascending by start minute. *)
Theorem selection_sorted (engine : list Slot.t → list Slot.t) (l : list Slot.t)
    (day fromMinute toMinute : Z) :
  Hours.selectedSlots (Hours.sort engine l) day fromMinute toMinute
  ≡ₚ Hours.selectedSlots l day fromMinute toMinute
  ∧ (numeric_starts l →
     ascending (Hours.selectedSlots (Hours.sort engine l) day fromMinute toMinute)).
Proof.
  split.
  - unfold Hours.selectedSlots. by rewrite sort_perm.
  - intros Hnum. eapply sublist_ascending; [apply selectedSlots_sublist|].
    by apply sort_ascending.
Qed.

Lemma selection_sorted_witness :
  ascending (Hours.selectedSlots (Hours.sort Sample.as_is (parsed Sample.carol)) 1 600 630).
Proof.
  apply (proj2 (selection_sorted Sample.as_is (parsed Sample.carol) 1 600 630)).
  by repeat constructor.
Defined.

(** ** Reading ["HH:MM"] *)

Lemma decimal_char (c : ascii) :
  is_decimal c = true →
  JS.is_white_space c = false
  ∧ Ascii.eqb c ":" = false ∧ Ascii.eqb c "-" = false ∧ Ascii.eqb c "+" = false
  ∧ Ascii.eqb c "x" = false ∧ Ascii.eqb c "X" = false
  ∧ JS.digit_value c = Some (decimal c)
  ∧ 0 ≤ decimal c ≤ 9.
Proof.
  destruct c as [[] [] [] [] [] [] [] []]; vm_compute; intros Hc; try discriminate Hc;
    repeat split; first [reflexivity | discriminate | by intros ?].
Qed.

Lemma parseInt_two_digits (a b : ascii) :
  is_decimal a = true → is_decimal b = true →
  JS.parseInt (String a (String b EmptyString)) = JS.Num (10 * decimal a + decimal b).
Proof.
  intros (Hw & _ & Hminus & Hplus & _ & _ & Hda & Ha)%decimal_char
         (_ & _ & _ & _ & Hx & HX & Hdb & Hb)%decimal_char.
  unfold JS.parseInt, JS.strip_sign, JS.strip_hex_prefix. simpl JS.trim_start.
  rewrite Hw, Hminus, Hplus, Hx, HX, andb_false_r. simpl.
  rewrite Hda, bool_decide_true by lia. rewrite Hdb, bool_decide_true by lia.
  f_equal. simpl. lia.
Qed.

Lemma split_nonempty (s : string) : JS.split ":" s ≠ [].
Proof.
  destruct s as [|c s]; simpl; [done|].
  destruct (Ascii.eqb c ":"); [done|]. by destruct (JS.split ":" s).
Qed.

Lemma split_one (s y : string) : JS.split ":" s = [y] → s = y.
Proof.
  revert y. induction s as [|c s IH]; intros y; simpl; [by intros [= <-]|].
  pose proof (split_nonempty s) as Hne.
  destruct (Ascii.eqb c ":"); [by intros [= _ Hnil]|].
  destruct (JS.split ":" s) as [|p [|q l]] eqn:Hs; try done.
  intros [= <-]. f_equal. by apply IH.
Qed.

(** The pieces of [split], put together again with colons. *)
Lemma split_two (s x y : string) :
  JS.split ":" s = [x; y] → s = (x +:+ String ":" y)%string.
Proof.
  revert x. induction s as [|c s IH]; intros x; simpl; [done|].
  destruct (Ascii.eqb_spec c ":") as [->|Hc].
  - intros [= <- Hs%split_one]. by subst.
  - pose proof (split_nonempty s) as Hne.
    destruct (JS.split ":" s) as [|p [|q [|r l]]] eqn:Hs; try done.
    intros [= <- <-]. change (String c s = String c (p +:+ String ":" q)).
    f_equal. by apply IH.
Qed.

Lemma two_digits_inv (s : string) :
  two_digits s = true →
  ∃ a b, s = String a (String b EmptyString) ∧ is_decimal a = true ∧ is_decimal b = true.
Proof.
  destruct s as [|a [|b [|]]]; try discriminate. simpl.
  intros [? ?]%andb_true_iff. by exists a, b.
Qed.

(** X13. A start or end string that is well formed as ["HH:MM"], two decimal
    digits, a colon and two decimal digits, is read as [hh * 60 + mm]: its
    minute value is a number, never NaN, and it lies in [[0, 1440)] when
    [hh] is at most 23 and [mm] at most 59. *)
Theorem well_formed_time_parses (s : string) :
  well_formed_HHMM s = true →
  ∃ a b c d,
    s = hhmm a b c d
    ∧ Hours.minutes_of (JS.split ":" s)
      = JS.Num ((10 * decimal a + decimal b) * 60 + (10 * decimal c + decimal d))
    ∧ 0 ≤ 10 * decimal a + decimal b ≤ 99
    ∧ 0 ≤ 10 * decimal c + decimal d ≤ 99
    ∧ (10 * decimal a + decimal b ≤ 23 → 10 * decimal c + decimal d ≤ 59 →
       minute_of_day ((10 * decimal a + decimal b) * 60 + (10 * decimal c + decimal d))).
Proof.
  unfold well_formed_HHMM.
  destruct (JS.split ":" s) as [|hh [|mm [|]]] eqn:Hs; try discriminate.
  intros [(a & b & -> & Ha & Hb)%two_digits_inv (c & d & -> & Hc & Hd)%two_digits_inv]
         %andb_true_iff.
  exists a, b, c, d. pose proof (split_two s _ _ Hs) as ->.
  unfold Hours.minutes_of, JS.parseInt_elem. simpl.
  rewrite !parseInt_two_digits by done. simpl.
  apply decimal_char in Ha as (_ & _ & _ & _ & _ & _ & _ & Ha).
  apply decimal_char in Hb as (_ & _ & _ & _ & _ & _ & _ & Hb).
  apply decimal_char in Hc as (_ & _ & _ & _ & _ & _ & _ & Hc).
  apply decimal_char in Hd as (_ & _ & _ & _ & _ & _ & _ & Hd).
  unfold minute_of_day. split_and!; try done; try lia.
Qed.

Lemma well_formed_time_parses_witness :
  ∃ a b c d,
    "09:30"%string = hhmm a b c d
    ∧ Hours.minutes_of (JS.split ":" "09:30")
      = JS.Num ((10 * decimal a + decimal b) * 60 + (10 * decimal c + decimal d))
    ∧ 0 ≤ 10 * decimal a + decimal b ≤ 99
    ∧ 0 ≤ 10 * decimal c + decimal d ≤ 99
    ∧ (10 * decimal a + decimal b ≤ 23 → 10 * decimal c + decimal d ≤ 59 →
       minute_of_day ((10 * decimal a + decimal b) * 60 + (10 * decimal c + decimal d))).
Proof. apply (well_formed_time_parses "09:30"). reflexivity. Defined.

Lemma append_cons (c : ascii) (s r : string) : (String c s +:+ r = String c (s +:+ r))%string.
Proof. reflexivity. Qed.

Lemma split_app_colon (s r : string) :
  JS.split ":" (s +:+ String ":" r) = JS.split ":" s ++ JS.split ":" r.
Proof.
  induction s as [|c s IH].
  - change (JS.split ":" (String ":" r) = [EmptyString] ++ JS.split ":" r).
    reflexivity.
  - rewrite append_cons. simpl. rewrite IH. destruct (Ascii.eqb c ":"); [done|].
    pose proof (split_nonempty s). by destruct (JS.split ":" s).
Qed.

Lemma has_colon_two_parts (s : string) :
  has_colon s → ∃ x y rest, JS.split ":" s = x :: y :: rest.
Proof.
  unfold has_colon. induction s as [|c s IH]; simpl.
  - by intros ?%elem_of_nil.
  - destruct (Ascii.eqb_spec c ":") as [->|Hc].
    + intros _. pose proof (split_nonempty s).
      destruct (JS.split ":" s) as [|y rest]; [done|]. by eexists _, _, _.
    + intros [?|Hin]%elem_of_cons; [done|].
      destruct (IH Hin) as (x & y & rest & ->). by eexists _, _, _.
Qed.

(** X14. Only the first two colon-separated components are read: once a
    string has its colon, whatever follows a further colon, seconds for
    instance, has no effect on the minute value. *)
Theorem later_components_ignored (s r : string) :
  has_colon s →
  Hours.minutes_of (JS.split ":" (s +:+ String ":" r)) = Hours.minutes_of (JS.split ":" s).
Proof.
  intros (x & y & rest & Hs)%has_colon_two_parts.
  by rewrite split_app_colon, Hs.
Qed.

Lemma later_components_ignored_witness :
  Hours.minutes_of (JS.split ":" "09:30:45") = Hours.minutes_of (JS.split ":" "09:30").
Proof.
  apply (later_components_ignored "09:30" "45").
  apply list_elem_of_further, list_elem_of_further, list_elem_of_here.
Defined.

(** ** More on the builder *)

Lemma forallb_ext_elem {A} (f g : A → bool) (l : list A) :
  (∀ x, x ∈ l → f x = g x) → forallb f l = forallb g l.
Proof.
  induction l as [|x l IH]; intros Hfg; simpl; [done|].
  rewrite (Hfg x), IH; [done| |apply list_elem_of_here].
  intros y Hy. by apply Hfg, list_elem_of_further.
Qed.

Lemma bind_ext_elem {A B} (f g : A → list B) (l : list A) :
  (∀ x, x ∈ l → f x = g x) → l ≫= f = l ≫= g.
Proof.
  induction l as [|x l IH]; intros Hfg; [done|].
  rewrite !bind_cons, (Hfg x), IH; [done| |apply list_elem_of_here].
  intros y Hy. by apply Hfg, list_elem_of_further.
Qed.

Lemma weekday_entry (entry : nat * string) :
  entry ∈ imap pair Hours.days → entry.2 ∈ Hours.days ∧ (entry.1 < 7)%nat.
Proof.
  intros (index & day & -> & Hday)%elem_of_lookup_imap. split.
  - apply list_elem_of_lookup. by exists index.
  - by apply lookup_lt_Some in Hday.
Qed.

(** Two rows that agree on the seven weekday keys are built alike. *)
Lemma row_ext (fbt fbt' : json) :
  (∀ day, day ∈ Hours.days → member_opt (Some fbt') day = member_opt (Some fbt) day) →
  schedule_ok (Schedule.mk fbt') = schedule_ok (Schedule.mk fbt)
  ∧ schedule_slots (Schedule.mk fbt') = schedule_slots (Schedule.mk fbt).
Proof.
  intros Hsame. unfold schedule_ok, schedule_slots. cbn [Schedule.freeBusyTimes]. split.
  - apply forallb_ext_elem. intros entry [Hday _]%weekday_entry.
    unfold day_ok. by rewrite Hsame.
  - apply bind_ext_elem. intros entry [Hday _]%weekday_entry.
    unfold day_slots. by rewrite Hsame.
Qed.

Lemma workingHours_rows (engine : list Slot.t → list Slot.t) (rawUser : User.t)
    (rows : list Schedule.t) :
  Hours.workingHours engine (with_Schedule rawUser rows)
  = if forallb schedule_ok rows
    then Normal (Hours.sort engine (Hours.or_default rawUser (rows ≫= schedule_slots)))
    else Throw TypeError.
Proof. by rewrite workingHours_spec. Qed.

(** X15. Only the seven lower-case weekday keys of a stored [freeBusyTimes]
    object are read: adding, or changing, any other key in any row of the
    user's schedule, a capitalised weekday for instance, changes neither the
    working hours nor whether the builder throws. *)
Theorem other_keys_ignored (engine : list Slot.t → list Slot.t) (rawUser : User.t)
    (before after : list Schedule.t) (fields : gmap string json) (key : string) (v : json) :
  key ∉ Hours.days →
  Hours.workingHours engine
    (with_Schedule rawUser (before ++ Schedule.mk (JObject (<[key:=v]> fields)) :: after))
  = Hours.workingHours engine
      (with_Schedule rawUser (before ++ Schedule.mk (JObject fields) :: after)).
Proof.
  intros Hkey.
  destruct (row_ext (JObject fields) (JObject (<[key:=v]> fields))) as [Hok Hslots].
  { intros day Hday. simpl. apply lookup_insert_ne. by intros ->. }
  rewrite !workingHours_rows, !forallb_app, !bind_app, !bind_cons. cbn [forallb].
  by rewrite Hok, Hslots.
Qed.

Lemma other_keys_ignored_witness :
  Hours.workingHours Sample.as_is
    (with_Schedule Sample.alice
       ([] ++ Schedule.mk (JObject (<["Monday"%string := JString "closed"]>
                                      {[ "monday"%string :=
                                           JArray [Sample.entry "09:00" "12:00"] ]})) :: []))
  = Hours.workingHours Sample.as_is
      (with_Schedule Sample.alice
         ([] ++ Schedule.mk (JObject {[ "monday"%string :=
                                          JArray [Sample.entry "09:00" "12:00"] ]}) :: [])).
Proof.
  apply (other_keys_ignored Sample.as_is Sample.alice [] []).
  intros Hin. repeat (apply elem_of_cons in Hin as [Hin|Hin]; [discriminate|]).
  by apply elem_of_nil in Hin.
Defined.

Lemma bind_nil_elem {A B} (f : A → list B) (l : list A) :
  (∀ x, x ∈ l → f x = []) → l ≫= f = [].
Proof.
  induction l as [|x l IH]; intros Hf; [done|].
  rewrite bind_cons, (Hf x), IH; [done| |apply list_elem_of_here].
  intros y Hy. by apply Hf, list_elem_of_further.
Qed.

Lemma silent_row_spec (schedule : Schedule.t) :
  silent_row schedule → schedule_ok schedule = true ∧ schedule_slots schedule = [].
Proof.
  intros Hsilent. unfold schedule_ok, schedule_slots. split.
  - apply forallb_forall. intros entry [Hday _]%list_elem_of_In%weekday_entry.
    unfold day_ok. by destruct (Hsilent _ Hday) as [->|[->| ->]].
  - apply bind_nil_elem. intros entry [Hday _]%weekday_entry.
    unfold day_slots. by destruct (Hsilent _ Hday) as [->|[->| ->]].
Qed.

(** X16. A schedule row whose [freeBusyTimes] has, under each weekday, no
    value, [null] or an empty array contributes no interval and raises
    nothing; so does a row whose [freeBusyTimes] is [null], a string, a
    number or an array.  A user who has only such rows gets the default
    interval, as a user without rows does. *)
Theorem silent_rows_fall_back (engine : list Slot.t → list Slot.t) (rawUser : User.t) :
  (∀ schedule,
     (∀ fields, Schedule.freeBusyTimes schedule ≠ JObject fields) → silent_row schedule)
  ∧ (Forall silent_row (User.Schedule rawUser) →
     Hours.workingHours engine rawUser = Normal [Hours.defaultAvailability rawUser]).
Proof.
  split.
  - intros schedule Hno day _. left.
    destruct (Schedule.freeBusyTimes schedule) as [| | | | |fields] eqn:Hfbt; try done.
    by destruct (Hno fields).
  - intros Hrows. rewrite workingHours_spec.
    assert (well_shaped rawUser = true ∧ parsed rawUser = []) as [-> ->]; [|done].
    unfold well_shaped, parsed. induction Hrows as [|schedule rows Hrow _ [IHok IHnil]].
    + done.
    + destruct (silent_row_spec schedule Hrow) as [Hok Hnil]. cbn [forallb].
      by rewrite bind_cons, Hok, Hnil, IHok, IHnil.
Qed.

Lemma silent_rows_fall_back_witness :
  Hours.workingHours Sample.as_is
    (with_Schedule Sample.alice
       [Schedule.mk JNull; Schedule.mk (JString "09:00-17:00");
        Schedule.mk (JObject {[ "monday"%string := JArray [] ]})])
  = Normal [Slot.mk [0; 1; 2; 3; 4; 5; 6] (JS.Num 540) (JS.Num 1020)].
Proof.
  apply (proj2 (silent_rows_fall_back Sample.as_is
                  (with_Schedule Sample.alice
                     [Schedule.mk JNull; Schedule.mk (JString "09:00-17:00");
                      Schedule.mk (JObject {[ "monday"%string := JArray [] ]})]))).
  constructor; [|constructor; [|constructor; [|constructor]]].
  - by apply (proj1 (silent_rows_fall_back Sample.as_is Sample.alice)).
  - by apply (proj1 (silent_rows_fall_back Sample.as_is Sample.alice)).
  - intros day Hday.
    repeat (apply elem_of_cons in Hday as [->|Hday]; [vm_compute; tauto|]).
    by apply elem_of_nil in Hday.
Defined.

(** X17. Over several schedule rows the builder emits the intervals of each
    row in row order: building from the rows [a ++ b] is building from [a],
    then from [b], and appending; it throws as soon as either part does. *)
Theorem rows_concatenate (rawUser : User.t) (a b : list Schedule.t) :
  Hours.workhours (with_Schedule rawUser (a ++ b))
  = Hours.workhours (with_Schedule rawUser a) ≫= λ la,
    Hours.workhours (with_Schedule rawUser b) ≫= λ lb,
    Normal (la ++ lb).
Proof.
  rewrite !workhours_spec. unfold well_shaped, parsed. cbn [with_Schedule User.Schedule].
  rewrite forallb_app, bind_app.
  destruct (forallb schedule_ok a); [|done]. simpl.
  by destruct (forallb schedule_ok b).
Qed.

(** X18. Every interval of the working hours is either the default interval
    or carries exactly one weekday, between 0 and 6; a request whose local
    weekday is [day] is therefore answered only with intervals of that one
    weekday, or with the default. *)
Theorem intervals_carry_one_weekday (engine : list Slot.t → list Slot.t) (rawUser : User.t)
    (wh : list Slot.t) :
  Hours.workingHours engine rawUser = Normal wh →
  (∀ slot, slot ∈ wh →
     slot = Hours.defaultAvailability rawUser
     ∨ ∃ index, 0 ≤ index ≤ 6 ∧ Slot.days slot = [index])
  ∧ (∀ slot day fromMinute toMinute,
       slot ∈ Hours.selectedSlots wh day fromMinute toMinute →
       slot = Hours.defaultAvailability rawUser ∨ Slot.days slot = [day]).
Proof.
  intros Hwh.
  assert (Hall : ∀ slot, slot ∈ wh →
     slot = Hours.defaultAvailability rawUser
     ∨ ∃ index, 0 ≤ index ≤ 6 ∧ Slot.days slot = [index]).
  { rewrite workingHours_spec in Hwh. destruct (well_shaped rawUser); [|discriminate].
    injection Hwh as <-. intros slot. rewrite sort_perm. unfold Hours.or_default.
    case_bool_decide.
    - intros (index & s & t & (_ & day & _ & _ & _ & Hday & _) & ->)%elem_of_parsed.
      right. exists (Z.of_nat index). split; [|done].
      apply lookup_lt_Some in Hday. simpl in Hday. lia.
    - intros ->%list_elem_of_singleton. by left. }
  split; [exact Hall|].
  intros slot day a b [Hin (Hday & _)]%elem_of_selectedSlots.
  destruct (Hall slot Hin) as [?|(index & _ & Hdays)]; [by left|right].
  rewrite Hdays in Hday |- *. by apply list_elem_of_singleton in Hday as ->.
Qed.

Lemma intervals_carry_one_weekday_witness :
  Slot.mk [1] (JS.Num 480) (JS.Num 720) = Hours.defaultAvailability Sample.carol
  ∨ Slot.days (Slot.mk [1] (JS.Num 480) (JS.Num 720)) = [1].
Proof.
  apply (proj2 (intervals_carry_one_weekday Sample.as_is Sample.carol
                  (Hours.stable_sort (parsed Sample.carol)) eq_refl) _ 1 600 630).
  apply list_elem_of_here.
Defined.

(** * Properties of the schedule handler *)

Section schedule_handler.
Context {DB : Type} (p : ScheduleApi.prisma DB).

Lemma try_catch_written (label : string) (db : DB) (w : completion (ScheduleRow.t * DB)) :
  ScheduleApi.try_catch db (w ≫= λ r, Normal (ScheduleApi.mk label r.1, r.2))
  = ScheduleApi.written label db w.
Proof. by destruct w as [[row db']|err]. Qed.

(** X19. A [POST] without a session, or whose body has no [data] object, is
    answered 500 "Unable to create schedule." and writes nothing, whatever
    the table would have done: [create] is not reached.  Otherwise the answer
    is 200 "created" with the row that [create] returned for the session's
    user id, or 500 with the table untouched when [create] raised. *)
Theorem post_outcome (session : json) (body : option json) (db : DB) :
  (session = JNull → ScheduleApi.handler p session "POST" body db = (Some ScheduleApi.Unable, db))
  ∧ (ScheduleApi.body_freeBusyTimes body = Throw TypeError →
     ScheduleApi.handler p session "POST" body db = (Some ScheduleApi.Unable, db))
  ∧ (∀ freeBusyTimes fields user,
       ScheduleApi.body_freeBusyTimes body = Normal freeBusyTimes →
       session = JObject fields → fields !! "user"%string = Some (JObject user) →
       ScheduleApi.handler p session "POST" body db
       = ScheduleApi.written "created" db
           (ScheduleApi.create p freeBusyTimes (user !! "id"%string) db)).
Proof.
  unfold ScheduleApi.handler, ScheduleApi.post, ScheduleApi.body_freeBusyTimes. simpl String.eqb.
  cbv iota. split_and!.
  - intros ->. destruct (member body "data") as [data|]; [|done]. simpl.
    by destruct (member data "freeBusyTimes").
  - destruct (member body "data") as [data|err]; simpl.
    + by intros ->.
    + done.
  - intros freeBusyTimes fields user Hfbt -> Huser.
    destruct (member body "data") as [data|err]; simpl in *; [|done].
    rewrite Hfbt. simpl. rewrite Huser. simpl. apply try_catch_written.
Qed.

(** X20. A [PATCH] does not read the session.  It looks the schedule up
    under [body.userId]; when one is found it overwrites the [freeBusyTimes]
    of that row and no other call is made, and when none is found it creates
    a row for [body.user_id], a different field.  Either way the answer is
    200 "updated" with the row returned, or 500 with the table untouched when
    [body.data] is missing or the call raised. *)
Theorem patch_outcome (session : json) (body : option json) (db : DB) (userId : option json) :
  member body "userId" = Normal userId →
  (∀ schedule,
     ScheduleApi.findFirst p userId db = Normal (Some schedule) →
     ScheduleApi.handler p session "PATCH" body db
     = match ScheduleApi.body_freeBusyTimes body with
       | Normal freeBusyTimes =>
           ScheduleApi.written "updated" db
             (ScheduleApi.update p freeBusyTimes (ScheduleRow.id schedule) db)
       | Throw _ => (Some ScheduleApi.Unable, db)
       end)
  ∧ (ScheduleApi.findFirst p userId db = Normal None →
     ScheduleApi.handler p session "PATCH" body db
     = match ScheduleApi.body_freeBusyTimes body, member body "user_id" with
       | Normal freeBusyTimes, Normal user_id =>
           ScheduleApi.written "updated" db (ScheduleApi.create p freeBusyTimes user_id db)
       | _, _ => (Some ScheduleApi.Unable, db)
       end)
  ∧ (∀ err, ScheduleApi.findFirst p userId db = Throw err →
     ScheduleApi.handler p session "PATCH" body db = (Some ScheduleApi.Unable, db)).
Proof.
  intros Hid. unfold ScheduleApi.handler, ScheduleApi.patch, ScheduleApi.body_freeBusyTimes.
  simpl String.eqb. cbv iota. rewrite Hid. simpl. split_and!.
  - intros schedule ->. simpl.
    destruct (member body "data") as [data|]; [|done]. simpl.
    destruct (member data "freeBusyTimes"); [|done]. simpl. apply try_catch_written.
  - intros ->. simpl.
    destruct (member body "data") as [data|]; [|done]. simpl.
    destruct (member data "freeBusyTimes"); [|done]. simpl.
    destruct (member body "user_id"); [|done]. simpl. apply try_catch_written.
  - by intros err ->.
Qed.

(** X21. The handler answers [POST] and [PATCH] only with 200 "created", 200
    "updated" or 500 "Unable to create schedule."; it changes the table only
    together with a 200 answer; and to any other method it sends nothing and
    leaves the table as it was. *)
Theorem schedule_answers (session : json) (method : string) (body : option json) (db : DB) :
  (method ≠ "POST"%string → method ≠ "PATCH"%string →
   ScheduleApi.handler p session method body db = (None, db))
  ∧ (∀ r db',
       ScheduleApi.handler p session method body db = (r, db') →
       (r = None ∧ db' = db ∧ method ≠ "POST"%string ∧ method ≠ "PATCH"%string)
       ∨ (r = Some ScheduleApi.Unable ∧ db' = db)
       ∨ (∃ row, r = Some (Body (ScheduleApi.mk "created" row)) ∧ method = "POST"%string)
       ∨ (∃ row, r = Some (Body (ScheduleApi.mk "updated" row)) ∧ method = "PATCH"%string)).
Proof.
  unfold ScheduleApi.handler. split.
  - intros Hpost Hpatch.
    destruct (String.eqb_spec method "POST"); [done|].
    by destruct (String.eqb_spec method "PATCH").
  - intros r db'.
    destruct (String.eqb_spec method "POST") as [->|Hpost].
    { unfold ScheduleApi.post. generalize (member (Some session) "user"). intros muser.
      destruct (member body "data") as [data|]; simpl; [|inversion 1; subst; auto].
      destruct (member data "freeBusyTimes") as [fbt|]; simpl; [|inversion 1; subst; auto].
      destruct muser as [user|]; simpl; [|inversion 1; subst; auto].
      destruct (member user "id") as [id|]; simpl; [|inversion 1; subst; auto].
      destruct (ScheduleApi.create p fbt id db) as [[row db'']|]; simpl; inversion 1; subst;
        [right; right; left; by exists row | auto]. }
    destruct (String.eqb_spec method "PATCH") as [->|Hpatch]; [|inversion 1; subst; auto].
    unfold ScheduleApi.patch.
    destruct (member body "userId") as [userId|]; simpl; [|inversion 1; subst; auto].
    destruct (ScheduleApi.findFirst p userId db) as [[schedule|]|]; simpl;
      [| |inversion 1; subst; auto].
    + destruct (member body "data") as [data|]; simpl; [|inversion 1; subst; auto].
      destruct (member data "freeBusyTimes") as [fbt|]; simpl; [|inversion 1; subst; auto].
      destruct (ScheduleApi.update p fbt (ScheduleRow.id schedule) db) as [[row db'']|]; simpl; inversion 1; subst;
        [right; right; right; by exists row | auto].
    + destruct (member body "data") as [data|]; simpl; [|inversion 1; subst; auto].
      destruct (member data "freeBusyTimes") as [fbt|]; simpl; [|inversion 1; subst; auto].
      destruct (member body "user_id") as [user_id|]; simpl; [|inversion 1; subst; auto].
      destruct (ScheduleApi.create p fbt user_id db) as [[row db'']|]; simpl; inversion 1; subst;
        [right; right; right; by exists row | auto].
Qed.

End schedule_handler.

Lemma post_outcome_witness :
  ScheduleApi.handler ScheduleApi.sample JNull "POST" Writes.body7 []
  = (Some ScheduleApi.Unable, [])
  ∧ ScheduleApi.handler ScheduleApi.sample Writes.session7 "POST" Writes.body7 []
    = (Some (Body (ScheduleApi.mk "created" (ScheduleRow.mk 1 (Some 7) (Some Writes.week)))),
       [ScheduleRow.mk 1 (Some 7) (Some Writes.week)]).
Proof.
  split.
  - apply (proj1 (post_outcome ScheduleApi.sample JNull Writes.body7 [])). reflexivity.
  - etrans;
      [apply (proj2 (proj2 (post_outcome ScheduleApi.sample Writes.session7 Writes.body7 []))
                (Some Writes.week)
                {[ "user"%string := JObject {[ "id"%string := JNumber 7 ]} ]}
                {[ "id"%string := JNumber 7 ]}); reflexivity
      |reflexivity].
Defined.

Lemma patch_outcome_witness :
  ScheduleApi.handler ScheduleApi.sample JNull "PATCH" Writes.body7 [Writes.row7]
  = (Some (Body (ScheduleApi.mk "updated" (ScheduleRow.mk 1 (Some 7) (Some Writes.week)))),
     [ScheduleRow.mk 1 (Some 7) (Some Writes.week)])
  ∧ ScheduleApi.handler ScheduleApi.sample Writes.session7 "PATCH" Writes.body7 []
    = (Some ScheduleApi.Unable, []).
Proof.
  split.
  - etrans;
      [apply (proj1 (patch_outcome ScheduleApi.sample JNull Writes.body7 [Writes.row7]
                       (Some (JNumber 7)) eq_refl) Writes.row7); reflexivity
      |reflexivity].
  - etrans;
      [apply (proj1 (proj2 (patch_outcome ScheduleApi.sample Writes.session7 Writes.body7 []
                              (Some (JNumber 7)) eq_refl))); reflexivity
      |reflexivity].
Defined.

Lemma schedule_answers_witness :
  ScheduleApi.handler ScheduleApi.sample Writes.session7 "GET" Writes.body7 [Writes.row7]
  = (None, [Writes.row7]).
Proof.
  apply (proj1 (schedule_answers ScheduleApi.sample Writes.session7 "GET" Writes.body7
                  [Writes.row7])); discriminate.
Defined.

(** * Properties of the onboarding steps *)

Lemma detectStep_range (p : Onboarding.props) (step : Z) :
  Onboarding.detectStep p = Normal step → 0 ≤ step < Onboarding.steps_length.
Proof.
  unfold Onboarding.detectStep, Onboarding.steps_length.
  destruct (Onboarding.integrations p) as [l|]; [|discriminate].
  destruct (match Onboarding.schedules p with Some _ => _ | None => _ end),
           (existsb Onboarding.has_credential l),
           (Onboarding.truthy (Onboarding.name p) && Onboarding.truthy (Onboarding.timeZone p));
    intros [= <-]; lia.
Qed.

Lemma react_in_range (s : Z) (ev : Onboarding.event) :
  0 ≤ s < Onboarding.steps_length →
  0 ≤ Onboarding.after s (Onboarding.react s ev) < Onboarding.steps_length.
Proof.
  unfold Onboarding.steps_length. intros Hs.
  destruct ev as [| | |index|p]; simpl;
    unfold Onboarding.incrementStep, Onboarding.decrementStep, Onboarding.goToStep,
      Onboarding.steps_length; repeat case_bool_decide; simpl; try lia.
  destruct (Onboarding.detectStep p) as [step|] eqn:Hstep; simpl; [|lia].
  by apply detectStep_range in Hstep.
Qed.

(** X22. Whatever the user does on the page, in any order, [currentStep]
    stays an index of [steps]: it starts at 0 and after every sequence of
    confirm, skip, previous, progress-bar and mount events it lies in
    [[0, 3]], so [steps[currentStep]] is defined whenever the page renders. *)
Theorem current_step_in_range (evs : list Onboarding.event) :
  0 ≤ Onboarding.run 0 evs < Onboarding.steps_length.
Proof.
  unfold Onboarding.run.
  assert (Hgen : ∀ s, 0 ≤ s < Onboarding.steps_length →
    0 ≤ foldl (λ s ev, Onboarding.after s (Onboarding.react s ev)) s evs
      < Onboarding.steps_length).
  { induction evs as [|ev evs IH]; intros s Hs; simpl; [done|].
    by apply IH, react_in_range. }
  apply Hgen. unfold Onboarding.steps_length. lia.
Qed.

(** X23. [detectStep] lets the last evidence win: it asks for step 3 as soon
    as the user has a schedule, also when no name or calendar is set; else
    for step 2 when some integration has a credential; else for step 1 when
    name and time zone are both non-empty; else for step 0.  It raises, and
    sets no step, exactly when [integrations] is absent. *)
Theorem detectStep_cases (p : Onboarding.props) :
  (∀ err, Onboarding.detectStep p = Throw err ↔
          Onboarding.integrations p = None ∧ err = TypeError)
  ∧ (∀ l, Onboarding.integrations p = Some l →
       let named := Onboarding.truthy (Onboarding.name p)
                    && Onboarding.truthy (Onboarding.timeZone p) in
       let connected := existsb Onboarding.has_credential l in
       let scheduled := ∃ s, Onboarding.schedules p = Some s ∧ s ≠ [] in
       (Onboarding.detectStep p = Normal 3 ↔ scheduled)
       ∧ (Onboarding.detectStep p = Normal 2 ↔ ¬ scheduled ∧ connected = true)
       ∧ (Onboarding.detectStep p = Normal 1 ↔
            ¬ scheduled ∧ connected = false ∧ named = true)
       ∧ (Onboarding.detectStep p = Normal 0 ↔
            ¬ scheduled ∧ connected = false ∧ named = false)).
Proof.
  unfold Onboarding.detectStep. split.
  - intros err. destruct (Onboarding.integrations p); split; try done.
    + by intros [[=] _].
    + by intros [= <-].
    + by intros [_ ->].
  - intros l ->. simpl.
    assert (Hs : (match Onboarding.schedules p with
                  | Some schedules => bool_decide (0 < length schedules)%nat
                  | None => false
                  end) = true ↔ ∃ s, Onboarding.schedules p = Some s ∧ s ≠ []).
    { destruct (Onboarding.schedules p) as [s|].
      - rewrite bool_decide_eq_true. split.
        + intros Hlen. exists s. split; [done|]. intros ->. simpl in Hlen. lia.
        + intros (s' & [= <-] & Hne). destruct s; [done|simpl; lia].
      - split; [done|by intros (? & [=] & _)]. }
    revert Hs.
    match goal with |- context [if ?b then 3 else _] => destruct b end; intros Hs.
    + assert (Hyes : ∃ s, Onboarding.schedules p = Some s ∧ s ≠ []) by by apply Hs.
      split_and!; split; try done; by intros [? _].
    + assert (Hno : ¬ ∃ s, Onboarding.schedules p = Some s ∧ s ≠ []).
      { by intros ?%Hs. }
      destruct (existsb Onboarding.has_credential l);
        destruct (Onboarding.truthy (Onboarding.name p)
                  && Onboarding.truthy (Onboarding.timeZone p));
        split_and!; split; try done; try discriminate;
        try (by intros (_ & ? & ?)); try (by intros (_ & ?)).
Qed.

Lemma detectStep_cases_witness :
  Onboarding.detectStep
    {| Onboarding.name := None; Onboarding.timeZone := Some "UTC"%string;
       Onboarding.integrations := Some []; Onboarding.schedules := Some [1] |}
  = Normal 3.
Proof.
  apply (proj1 (proj2 (detectStep_cases
                         {| Onboarding.name := None; Onboarding.timeZone := Some "UTC"%string;
                            Onboarding.integrations := Some [];
                            Onboarding.schedules := Some [1] |}) [] eq_refl)).
  by exists [1].
Defined.
